(** * od_passwd: changing an Open Directory password

    A shallow embedding of [passwd.tproj/od_passwd.c].  The program is a
    single synchronous flow over three collaborators: the process
    environment (uid, sysctl, fork/exec/waitpid), the terminal ([getpass])
    and the Open Directory framework.  Their answers are collected in a
    [World]; the program itself is written in a small state-and-exit monad
    and leaves a chronological list of [Event]s behind.

    Conventions.
    - A C pointer that may be NULL is an [option]; [None] is NULL.
    - A [CFStringRef] that is not NULL is the text it holds.
    - The out-parameter [&error] is the field [error] of the state; a
      callee either leaves it alone or stores a value into it.
    - Reference counting ([CFRetain]/[CFRelease]) and allocation failure of
      [strdup]/[malloc] are not represented, except that retaining a NULL
      element in [CFArrayCreate] is a fault. *)

From Stdlib Require Import ZArith String Ascii List Bool Lia Sorted.
Import ListNotations.
Local Open Scope string_scope.
Local Open Scope Z_scope.

(** ** Data *)

Definition CFStringRef := string.

Record CFErrorRef := mkCFError {
  CFErrorGetCode : Z;
  CFErrorCopyDescription : option CFStringRef;
  CFErrorCopyFailureReason : option CFStringRef;
  CFErrorCopyRecoverySuggestion : option CFStringRef
}.

Inductive ODSessionRef := ODSession (id : nat).
Inductive ODNodeRef := ODNode (id : nat).
Inductive ODRecordRef := ODRecord (id : nat).

Inductive CFComparisonResult :=
  kCFCompareLessThan | kCFCompareEqualTo | kCFCompareGreaterThan.

(** What a callee does with the [CFErrorRef *] it was handed: nothing
    ([None]) or a store ([Some e], where [e] itself may be NULL). *)
Definition ErrWrite := option (option CFErrorRef).

(** Everything the process does to the outside, in order. *)
Inductive Event :=
| Stdout (s : string)
| Stderr (s : string)
| Perror (s : string)
| CallSysctlbyname (name : string)
| CallFork
| CallExecl (path : string) (argv : list string)
| CallWaitpid
| CallSessionCreate (localpath : option CFStringRef)
| CallNodeCreateWithName (session : option ODSessionRef) (name : CFStringRef)
| CallNodeCreateWithNodeType (session : option ODSessionRef)
| CallNodeCopyRecord (node : ODNodeRef) (name : CFStringRef)
| CallRecordCopyValues (rec : ODRecordRef)
| CallGetpass (prompt : string) (reply : option string)
| CallSetNodeCredentialsExtended (rec : ODRecordRef)
                                 (authItems : list (option CFStringRef))
| CallChangePassword (rec : ODRecordRef) (oldpass newpass : option CFStringRef).

(** How a run ends.  [Returned v] is [return v] from [od_passwd];
    [Exited s] is [exit(s)]; [Replaced] is a successful [execl] in the
    forked child; [Faulted] is a NULL handed to a CoreFoundation function
    that requires an object; [OutOfFuel] marks an unfinished loop and is
    shown below never to occur. *)
Inductive Outcome :=
| Returned (v : Z)
| Exited (status : Z)
| Replaced
| Faulted
| OutOfFuel.

(** The answers of the collaborators, and the constants of the system
    headers the source is compiled against. *)
Record World := mkWorld {
  (* <stdio.h>, <sys/wait.h>, <OpenDirectory/OpenDirectory.h>, passwd.c *)
  progname : string;
  BUFSIZ : nat;
  WIFEXITED : Z -> bool;
  WEXITSTATUS : Z -> Z;
  kODErrorSessionDaemonNotRunning : Z;
  (* process environment *)
  getuid : Z;
  sysctlbyname : string -> Z * Z;        (* return value, value stored *)
  fork : Z;
  execl_returns : bool;                  (* in the child: [execl] failed *)
  waitpid_eintr : nat;                   (* calls interrupted by a signal *)
  waitpid : Z * Z;                       (* then: return value, status *)
  (* CoreFoundation *)
  CFStringCreateWithCString_ok : string -> bool;
  CFDictionaryCreate_ok : bool;
  (* Open Directory *)
  ODSessionCreate : option CFStringRef -> option ODSessionRef * ErrWrite;
  ODNodeCreateWithName :
    option ODSessionRef -> CFStringRef -> option ODNodeRef * ErrWrite;
  ODNodeCreateWithNodeType :
    option ODSessionRef -> option ODNodeRef * ErrWrite;
  ODNodeCopyRecord : ODNodeRef -> CFStringRef -> option ODRecordRef * ErrWrite;
  ODRecordCopyValues : ODRecordRef -> option (list CFStringRef) * ErrWrite;
  ODRecordSetNodeCredentialsExtended :
    ODRecordRef -> list (option CFStringRef) -> ErrWrite;
  ODRecordChangePassword :
    ODRecordRef -> option CFStringRef -> option CFStringRef -> ErrWrite;
  (* terminal: the replies [getpass] will give, then end of input *)
  terminal : list (option string)
}.

(** The mutable part: the global [master_mode], the local [error] that is
    passed by address, the static buffer [getpass] answers in, what is
    left of the terminal input, and the events so far. *)
Record State := mkState {
  master_mode : Z;
  error : option CFErrorRef;
  passbuf : string;
  input : list (option string);
  output : list Event
}.

Definition initial (w : World) : State :=
  mkState 0 None "" (terminal w) [].

(** ** The monad *)

Inductive Step (A : Type) :=
| Next (a : A) (st : State)
| Halt (o : Outcome) (st : State).
Arguments Next {A} a st.
Arguments Halt {A} o st.

Definition M (A : Type) := State -> Step A.

Definition ret {A} (a : A) : M A := fun st => Next a st.

Definition bind {A B} (m : M A) (k : A -> M B) : M B :=
  fun st => match m st with
            | Next a st' => k a st'
            | Halt o st' => Halt o st'
            end.

Definition halt {A} (o : Outcome) : M A := fun st => Halt o st.

Declare Scope od_scope.
Delimit Scope od_scope with od.
Notation "x <- m ;; k" := (bind m (fun x => k))
  (at level 61, m at next level, right associativity) : od_scope.
Notation "m ;; k" := (bind m (fun _ => k))
  (at level 61, right associativity) : od_scope.
Local Open Scope od_scope.

Definition emit (e : Event) : M unit :=
  fun st => Next tt (mkState (master_mode st) (error st) (passbuf st)
                             (input st) (output st ++ [e])).

Definition get_error : M (option CFErrorRef) := fun st => Next (error st) st.

Definition store_error (ew : ErrWrite) : M unit :=
  fun st => match ew with
            | None => Next tt st
            | Some e => Next tt (mkState (master_mode st) e (passbuf st)
                                         (input st) (output st))
            end.

Definition get_master_mode : M Z := fun st => Next (master_mode st) st.

Definition set_master_mode (v : Z) : M unit :=
  fun st => Next tt (mkState v (error st) (passbuf st) (input st) (output st)).

(** A call with an [&error] argument: log it, apply the callee's store,
    hand back its result. *)
Definition call {A} (e : Event) (r : A * ErrWrite) : M A :=
  emit e ;; store_error (snd r) ;; ret (fst r).

Definition exit {A} (status : Z) : M A := halt (Exited status).
Definition Return {A} (v : Z) : M A := halt (Returned v).

(** Running a computation whose every path ends in [Return] or [exit]. *)
Definition run (m : M Z) (st : State) : Outcome * State :=
  match m st with
  | Next v st' => (Returned v, st')
  | Halt o st' => (o, st')
  end.

(** ** C library and CoreFoundation helpers *)

Definition nl : string := String (ascii_of_nat 10) EmptyString.

Definition is_true (v : Z) : bool := negb (v =? 0).

Definition strcmp_eq (a b : string) : bool := String.eqb a b.

(** [strlcpy]/[snprintf] into a buffer of [size] bytes keep at most
    [size - 1] characters. *)
Definition truncate (size : nat) (s : string) : string :=
  substring 0 (Nat.pred size) s.

(** [(int)su] for a [uint32_t su]. *)
Definition int_of_uint32 (v : Z) : Z :=
  let u := v mod 2 ^ 32 in
  if u <? 2 ^ 31 then u else u - 2 ^ 32.

Definition zeroes (n : nat) : string :=
  string_of_list_ascii (repeat zero n).

(** [getpass]: the next reply of the terminal, left in the static buffer.
    At end of input it answers NULL. *)
Definition getpass (prompt : string) : M (option string) :=
  fun st =>
    match input st with
    | [] =>
        Next None (mkState (master_mode st) (error st) (passbuf st) []
                           (output st ++ [CallGetpass prompt None]))
    | r :: rest =>
        Next r (mkState (master_mode st) (error st)
                        (match r with Some p => p | None => passbuf st end)
                        rest (output st ++ [CallGetpass prompt r]))
    end.

(** [memset(p, 0, strlen(p))] on the pointer [getpass] returned. *)
Definition memset_zero (p : string) : M unit :=
  fun st => Next tt (mkState (master_mode st) (error st)
                             (zeroes (String.length p))
                             (input st) (output st)).

Section Program.

Variable w : World.

Definition CFStringCreateWithCString (s : string) : option CFStringRef :=
  if CFStringCreateWithCString_ok w s then Some s else None.

Definition CFEqual (a b : CFStringRef) : bool := String.eqb a b.

(** The comparison of the characters of [s] in [location, location+length)
    with [t]; of a range that runs past the end of [s], the characters
    that exist are compared. *)
Definition CFStringCompareWithOptions
    (s t : CFStringRef) (location length : nat) : CFComparisonResult :=
  match String.compare (substring location length s) t with
  | Lt => kCFCompareLessThan
  | Eq => kCFCompareEqualTo
  | Gt => kCFCompareGreaterThan
  end.

Definition is_kCFCompareEqualTo (c : CFComparisonResult) : bool :=
  match c with kCFCompareEqualTo => true | _ => false end.

(** [cfprintf(stderr, ...)], with the format already expanded. *)
Definition cfprintf (s : string) : M unit := emit (Stderr s).

(** Lines 59-75. *)
Definition show_error (err : option CFErrorRef) : M unit :=
  match err with
  | None => ret tt
  | Some e =>
      match CFErrorCopyDescription e with
      | Some desc => cfprintf (progname w ++ ": " ++ desc)
      | None => ret tt
      end ;;
      match CFErrorCopyFailureReason e with
      | Some desc => cfprintf ("  " ++ desc)
      | None => ret tt
      end ;;
      match CFErrorCopyRecoverySuggestion e with
      | Some desc => cfprintf ("  " ++ desc)
      | None => ret tt
      end ;;
      emit (Stderr nl)
  end.

(** Lines 77-86. *)
Definition is_singleuser : M Z :=
  emit (CallSysctlbyname "kern.singleuser") ;;
  let '(rc, su) := sysctlbyname w "kern.singleuser" in
  if negb (rc =? 0) then ret 0 else ret (int_of_uint32 su).

(** Lines 106-108: [waitpid] is repeated while it is interrupted. *)
Fixpoint waitpid_loop (interrupted : nat) : M (Z * Z) :=
  emit CallWaitpid ;;
  match interrupted with
  | O => ret (waitpid w)
  | S n => waitpid_loop n
  end.

(** Lines 88-116. *)
Definition load_DirectoryServicesLocal : M Z :=
  let launchctl := "/bin/launchctl" in
  let plist :=
    "/System/Library/LaunchDaemons/com.apple.DirectoryServicesLocal.plist" in
  emit CallFork ;;
  let pid := fork w in
  if pid =? -1 then
    emit (Perror "launchctl") ;; ret 0
  else if pid =? 0 then
    emit (CallExecl launchctl [launchctl; "load"; plist]) ;;
    if execl_returns w then emit (Perror "launchctl") ;; exit 1
    else halt Replaced
  else
    r <- waitpid_loop (waitpid_eintr w) ;;
    let '(res, status) := r in
    if res =? -1 then
      emit (Perror "launchctl") ;; ret 0
    else
      ret (Z.b2z (WIFEXITED w status && (WEXITSTATUS w status =? 0))).

(** ** [od_passwd]

    The body of [od_passwd] is cut at the places the flow is described
    by: resolution of the record (lines 132-209), the trust policy
    (211-223), the old password (225-237), the new password loop
    (239-260) and the commit (262-313). *)

(** What the later steps keep from the resolution of the record. *)
Record Resolved := mkResolved {
  uname : string;
  aname : string;
  change_pass_on_self : bool;
  username : CFStringRef;
  authname : option CFStringRef;
  location : option CFStringRef;
  rec : ODRecordRef
}.

(** [a() && b()]: [b] runs only when [a] answered non-zero. *)
Definition and_then (a b : M Z) : M bool :=
  x <- a ;;
  if is_true x then (y <- b ;; ret (is_true y)) else ret false.

Definition session_daemon_not_running
    (session : option ODSessionRef) (err : option CFErrorRef) : bool :=
  match session, err with
  | None, Some e => CFErrorGetCode e =? kODErrorSessionDaemonNotRunning w
  | _, _ => false
  end.

(** Lines 159-183: connect to the DS server; in single-user mode load the
    local daemon and connect to the database on disk. *)
Definition od_connect (location : option CFStringRef)
  : M (option ODSessionRef * option CFStringRef) :=
  session <- call (CallSessionCreate None) (ODSessionCreate w None) ;;
  err <- get_error ;;
  if session_daemon_not_running session err then
    ok <- and_then is_singleuser load_DirectoryServicesLocal ;;
    if ok : bool then
      session <-
        (if CFDictionaryCreate_ok w then
           call (CallSessionCreate (Some "/var/db/dslocal"))
                (ODSessionCreate w (Some "/var/db/dslocal"))
         else ret session) ;;
      ret (session,
           match location with
           | None => Some "/Local/Default"
           | Some l => Some l
           end)
    else
      err <- get_error ;;
      show_error err ;;
      Return (-1)
  else ret (session, location).

(** Lines 186-209: open the node and copy the record. *)
Definition od_copy_record
    (uname : string) (username : CFStringRef)
    (session : option ODSessionRef) (location : option CFStringRef)
  : M ODRecordRef :=
  node <-
    match location with
    | Some l => call (CallNodeCreateWithName session l)
                     (ODNodeCreateWithName w session l)
    | None => call (CallNodeCreateWithNodeType session)
                   (ODNodeCreateWithNodeType w session)
    end ;;
  rec <-
    match node with
    | Some n => call (CallNodeCopyRecord n username)
                     (ODNodeCopyRecord w n username)
    | None => ret None
    end ;;
  match rec with
  | Some r => ret r
  | None =>
      err <- get_error ;;
      match err with
      | Some _ => show_error err
      | None => emit (Stderr (progname w ++ ": Unknown user name '"
                                ++ uname ++ "'." ++ nl))
      end ;;
      Return (-1)
  end.

(** Lines 132-209. *)
Definition od_resolve (uname locn aname : option string) : M Resolved :=
  match uname with
  | None => Return (-1)
  | Some uname =>
      let aname := match aname with Some a => a | None => uname end in
      set_master_mode (Z.b2z (getuid w =? 0)) ;;
      let change_pass_on_self := strcmp_eq aname uname in
      let location :=
        match locn with
        | Some l => CFStringCreateWithCString l
        | None => None
        end in
      let authname := CFStringCreateWithCString aname in
      match CFStringCreateWithCString uname with
      | None => Return (-1)
      | Some username =>
          sl <- od_connect location ;;
          let '(session, location) := sl in
          rec <- od_copy_record uname username session location ;;
          ret (mkResolved uname aname change_pass_on_self
                          username authname location rec)
      end
  end.

(** Lines 211-223: the actual location of the record, and whether the
    caller has to authenticate. *)
Definition od_policy (r : Resolved) : M (option CFStringRef * bool) :=
  values <- call (CallRecordCopyValues (rec r)) (ODRecordCopyValues w (rec r)) ;;
  let location :=
    match values with
    | Some (v :: _) => Some v
    | _ => location r
    end in
  emit (Stdout ("Changing password for " ++ uname r ++ "." ++ nl)) ;;
  mm <- get_master_mode ;;
  needs_auth <-
    (if negb (is_true mm) then ret true
     else match location with
          | None => halt Faulted
          | Some l =>
              ret (negb (is_kCFCompareEqualTo
                           (CFStringCompareWithOptions l "/Local/" 0 7)))
          end) ;;
  ret (location, needs_auth).

(** Lines 225-237. *)
Definition od_oldpass (r : Resolved) (needs_auth : bool)
  : M (option CFStringRef) :=
  if needs_auth then
    let prompt :=
      if change_pass_on_self r then truncate (BUFSIZ w) "Old password:"
      else truncate (BUFSIZ w) ("Password for " ++ aname r ++ ":") in
    p <- getpass prompt ;;
    match p with
    | Some s =>
        let oldpass := CFStringCreateWithCString s in
        memset_zero s ;; ret oldpass
    | None => ret None
    end
  else ret None.

Definition unchanged {A} : M A :=
  emit (Stdout ("Password unchanged." ++ nl)) ;; exit 0.

Definition mismatch : M unit :=
  emit (Stdout ("Mismatch; try again, EOF to quit." ++ nl)).

(** Lines 239-260, once round the loop per unit of fuel. *)
Fixpoint newpass_loop (fuel : nat) : M (option CFStringRef) :=
  match fuel with
  | O => halt OutOfFuel
  | S fuel' =>
      p <- getpass "New password:" ;;
      newpass <-
        match p with
        | Some s =>
            if (0 <? String.length s)%nat then
              let newpass := CFStringCreateWithCString s in
              memset_zero s ;; ret newpass
            else unchanged
        | None => unchanged
        end ;;
      p <- getpass "Retype new password:" ;;
      match p with
      | Some s =>
          match CFStringCreateWithCString s with
          | None => mismatch ;; newpass_loop fuel'
          | Some verify =>
              match newpass with
              | None => halt Faulted
              | Some n =>
                  if CFEqual n verify then ret newpass
                  else mismatch ;; newpass_loop fuel'
              end
          end
      | None => newpass_loop fuel'
      end
  end.

(** The loop itself: every round that does not leave it has consumed a
    reply, so one round more than there are replies is enough. *)
Definition od_newpass : M (option CFStringRef) :=
  fun st => newpass_loop (S (List.length (input st))) st.

(** [CFArrayCreate] with [kCFTypeArrayCallBacks] retains every element:
    a NULL element is a NULL handed to CoreFoundation. *)
Definition CFArrayCreate (values : list (option CFStringRef))
  : M (list (option CFStringRef)) :=
  if forallb (fun v => match v with Some _ => true | None => false end) values
  then ret values
  else halt Faulted.

(** Lines 262-313. *)
Definition od_commit (r : Resolved) (needs_auth : bool)
    (oldpass newpass : option CFStringRef) : M Z :=
  (if needs_auth then
     let values := [Some (username r); newpass; authname r; oldpass] in
     authItems <- CFArrayCreate values ;;
     emit (CallSetNodeCredentialsExtended (rec r) authItems) ;;
     store_error (ODRecordSetNodeCredentialsExtended w (rec r) authItems)
   else
     emit (CallChangePassword (rec r) oldpass newpass) ;;
     store_error (ODRecordChangePassword w (rec r) oldpass newpass)) ;;
  err <- get_error ;;
  match err with
  | Some _ => show_error err ;; exit 1
  | None => Return 0
  end.

(** Lines 211-313, for a record that was found. *)
Definition od_change (r : Resolved) : M Z :=
  pol <- od_policy r ;;
  let needs_auth := snd pol in
  oldpass <- od_oldpass r needs_auth ;;
  newpass <- od_newpass ;;
  od_commit r needs_auth oldpass newpass.

Definition od_passwd (uname locn aname : option string) : M Z :=
  r <- od_resolve uname locn aname ;;
  od_change r.

End Program.

(** A whole invocation. *)
Definition invoke (w : World) (uname locn aname : option string)
  : Outcome * State :=
  run (od_passwd w uname locn aname) (initial w).

(** * Vocabulary of the properties *)

Local Open Scope list_scope.

Definition is_prompt (e : Event) : bool :=
  match e with CallGetpass _ _ => true | _ => false end.

Definition is_mutation (e : Event) : bool :=
  match e with
  | CallSetNodeCredentialsExtended _ _ | CallChangePassword _ _ _ => true
  | _ => false
  end.

Definition is_node_or_record_call (e : Event) : bool :=
  match e with
  | CallNodeCreateWithName _ _ | CallNodeCreateWithNodeType _
  | CallNodeCopyRecord _ _ => true
  | _ => false
  end.

(** Events of the steps before the first prompt. *)
Definition background (e : Event) : Prop :=
  is_prompt e = false /\ is_mutation e = false.

(** The state [st] with [evs] appended to its events. *)
Definition logged (evs : list Event) (st : State) : State :=
  mkState (master_mode st) (error st) (passbuf st) (input st)
          (output st ++ evs).

Definition state_of {A} (s : Step A) : State :=
  match s with Next _ st | Halt _ st => st end.

(** [st'] continues [st]: the events of [st] and then [evs]. *)
Definition extends (st st' : State) (evs : list Event) : Prop :=
  output st' = output st ++ evs.

(** What [show_error] prints. *)
Definition shown (w : World) (err : option CFErrorRef) : list Event :=
  match err with
  | None => []
  | Some e =>
      match CFErrorCopyDescription e with
      | Some d => [Stderr (progname w ++ ": " ++ d)%string]
      | None => []
      end ++
      match CFErrorCopyFailureReason e with
      | Some d => [Stderr ("  " ++ d)%string]
      | None => []
      end ++
      match CFErrorCopyRecoverySuggestion e with
      | Some d => [Stderr ("  " ++ d)%string]
      | None => []
      end ++ [Stderr nl]
  end.

(** The steps before the first prompt touch neither the terminal nor the
    buffer, and log only background events. *)
Definition quietly (st st' : State) : Prop :=
  passbuf st' = passbuf st /\
  input st' = input st /\
  exists evs, extends st st' evs /\ Forall background evs.

Definition resolve_halt (w : World) (o : Outcome) : Prop :=
  o = Returned (-1) \/ (fork w = 0 /\ (o = Replaced \/ o = Exited 1)).

(** The location a caller supplied, as a [CFStringRef]. *)
Definition supplied (w : World) (locn : option string) : option CFStringRef :=
  match locn with
  | Some l => CFStringCreateWithCString w l
  | None => None
  end.

Definition declined (reply : option string) : bool :=
  match reply with
  | Some s => negb (0 <? String.length s)%nat
  | None => true
  end.

Definition new_prompt : string := "New password:".
Definition retype_prompt : string := "Retype new password:".
Definition unchanged_line : string := ("Password unchanged." ++ nl)%string.
Definition mismatch_line : string :=
  ("Mismatch; try again, EOF to quit." ++ nl)%string.

(** A declined new password: an empty or missing reply to "New password:". *)
Definition is_declined_new (e : Event) : bool :=
  match e with
  | CallGetpass p r => String.eqb p new_prompt && declined r
  | _ => false
  end.

Definition calm (e : Event) : Prop :=
  is_mutation e = false /\ is_declined_new e = false.

(** What the loop leaves behind when started in [st]. *)
Definition loop_post (w : World) (st : State)
    (res : Step (option CFStringRef)) : Prop :=
  master_mode (state_of res) = master_mode st /\
  error (state_of res) = error st /\
  exists evs, Forall calm evs /\
    match res with
    | Next np st' =>
        exists c,
          output st' =
            output st ++ evs ++ [CallGetpass new_prompt (Some c);
                                 CallGetpass retype_prompt (Some c)] /\
          np = Some c /\ c <> ""%string /\ passbuf st' = c
    | Halt o st' =>
        (o = Exited 0 /\
         exists reply, declined reply = true /\
           output st' =
             output st ++ evs ++ [CallGetpass new_prompt reply;
                                  Stdout unchanged_line]) \/
        (o = Faulted /\ output st' = output st ++ evs /\
         exists s, In (Some s) (input st) /\
                   CFStringCreateWithCString_ok w s = false)
    end.

(** The location the trust check is made on: the first value of the
    record's node location attribute if it has one, and otherwise the
    location the resolution ended with. *)
Definition location_used (w : World) (r : Resolved) : option CFStringRef :=
  match fst (ODRecordCopyValues w (rec r)) with
  | Some (v :: _) => Some v
  | _ => location r
  end.

Definition begins_local (loc : option CFStringRef) : bool :=
  match loc with
  | Some l => prefix "/Local/" l
  | None => false
  end.

Definition old_prompt (w : World) (r : Resolved) : string :=
  if change_pass_on_self r then truncate (BUFSIZ w) "Old password:"
  else truncate (BUFSIZ w) ("Password for " ++ aname r ++ ":")%string.

Definition converted (w : World) (reply : option string)
  : option CFStringRef :=
  match reply with
  | Some s => CFStringCreateWithCString w s
  | None => None
  end.

(** The items of the extended operation are all there: [CFArrayCreate]
    gets no NULL element.  The other operation builds no array. *)
Definition items_present (r : Resolved) (needs_auth : bool)
    (oldpass newpass : option CFStringRef) : bool :=
  if needs_auth then
    forallb (fun v => match v with Some _ => true | None => false end)
            [Some (username r); newpass; authname r; oldpass]
  else true.

Definition commit_event (r : Resolved) (needs_auth : bool)
    (oldpass newpass : option CFStringRef) : Event :=
  if needs_auth then
    CallSetNodeCredentialsExtended
      (rec r) [Some (username r); newpass; authname r; oldpass]
  else CallChangePassword (rec r) oldpass newpass.

Definition commit_store (w : World) (r : Resolved) (needs_auth : bool)
    (oldpass newpass : option CFStringRef) : ErrWrite :=
  if needs_auth then
    ODRecordSetNodeCredentialsExtended w
      (rec r) [Some (username r); newpass; authname r; oldpass]
  else ODRecordChangePassword w (rec r) oldpass newpass.

Inductive Ending (w : World) : Outcome -> State -> Prop :=
| EndResolve o st :
    Forall background (output st) -> resolve_halt w o -> Ending w o st
| EndPolicy st :
    Forall background (output st) -> Ending w Faulted st
| EndDeclined st pre reply :
    Forall calm pre -> declined reply = true ->
    output st = pre ++ [CallGetpass new_prompt reply; Stdout unchanged_line] ->
    Ending w (Exited 0) st
| EndLoopFault st :
    Forall calm (output st) -> Ending w Faulted st
| EndCommit o st pre op :
    Forall calm pre -> is_mutation op = true ->
    output st = pre ++ op :: shown w (error st) ->
    o = match error st with Some _ => Exited 1 | None => Returned 0 end ->
    Ending w o st.


(** An invocation reaches the commit step with flag [needs_auth], the
    passwords [oldpass] and [newpass], in state [st]. *)
Definition reaches_commit (w : World) (u l a : option string)
    (r : Resolved) (needs_auth : bool)
    (oldpass newpass : option CFStringRef) (st : State) : Prop :=
  exists st1 loc st2 st3,
    od_resolve w u l a (initial w) = Next r st1 /\
    od_policy w r st1 = Next (loc, needs_auth) st2 /\
    od_oldpass w r needs_auth st2 = Next oldpass st3 /\
    od_newpass w st3 = Next newpass st.

(** A new password and a confirmation that does not match it. *)
Definition mismatching (w : World) (p : string * string) : Prop :=
  fst p <> ""%string /\
  CFStringCreateWithCString_ok w (fst p) = true /\
  snd p <> fst p.

Definition replies (ps : list (string * string)) : list (option string) :=
  flat_map (fun p => [Some (fst p); Some (snd p)]) ps.

Definition mismatch_round (p : string * string) : list Event :=
  [CallGetpass new_prompt (Some (fst p));
   CallGetpass retype_prompt (Some (snd p));
   Stdout mismatch_line].

Definition mismatch_rounds (ps : list (string * string)) : list Event :=
  flat_map mismatch_round ps.

Definition convertible (w : World) (st : State) : Prop :=
  forall s, In (Some s) (input st) -> CFStringCreateWithCString_ok w s = true.

Definition value_of {A} (s : Step A) : option A :=
  match s with Next a _ => Some a | Halt _ _ => None end.

(** The first session creation fails with the daemon-not-running error. *)
Definition daemon_not_running (w : World) (e : CFErrorRef) : Prop :=
  ODSessionCreate w None = (None, Some (Some e)) /\
  CFErrorGetCode e = kODErrorSessionDaemonNotRunning w.

(** What [is_singleuser()] and [load_DirectoryServicesLocal()] answer. *)
Definition singleuser_flag (w : World) : option Z :=
  value_of (is_singleuser w (initial w)).

Definition loader_result (w : World) : option Z :=
  value_of (load_DirectoryServicesLocal w (initial w)).

Definition local_path : CFStringRef := "/var/db/dslocal".

Definition unknown_user (w : World) (name : string) : Event :=
  Stderr (progname w ++ ": Unknown user name '" ++ name ++ "'." ++ nl)%string.

Definition or_default (loc : option CFStringRef) : CFStringRef :=
  match loc with
  | Some x => x
  | None => "/Local/Default"%string
  end.

(** ** Sample worlds *)

Definition no_error : ErrWrite := Some None.

Definition sample_error (code : Z) (description : string) : CFErrorRef :=
  mkCFError code (Some description) None None.

(** A host as the source expects it: [BUFSIZ] 1024, the wait macros of
    <sys/wait.h>, daemon-not-running as code 10002, a forked loader that
    exits with status 0. *)
Definition sample_world
    (uid : Z)
    (session : option CFStringRef -> option ODSessionRef * ErrWrite)
    (singleuser : Z * Z)
    (node : option ODNodeRef * ErrWrite)
    (record : option ODRecordRef * ErrWrite)
    (values : option (list CFStringRef) * ErrWrite)
    (commit : ErrWrite)
    (tty : list (option string)) : World :=
  mkWorld "passwd" 1024%nat
    (fun status => Z.land status 127 =? 0)
    (fun status => Z.land (Z.shiftr status 8) 255)
    10002
    uid (fun _ => singleuser) 77 false 0%nat (77, 0)
    (fun _ => true) true
    session
    (fun _ _ => node)
    (fun _ => node)
    (fun _ _ => record)
    (fun _ => values)
    (fun _ _ => commit)
    (fun _ _ _ => commit)
    tty.

Definition session_ok (_ : option CFStringRef)
  : option ODSessionRef * ErrWrite :=
  (Some (ODSession 1), no_error).

Definition daemon_down : CFErrorRef :=
  sample_error 10002 "Session daemon is not running".

Definition session_down (_ : option CFStringRef)
  : option ODSessionRef * ErrWrite :=
  (None, Some (Some daemon_down)).

Definition node_ok : option ODNodeRef * ErrWrite :=
  (Some (ODNode 1), no_error).

Definition record_ok : option ODRecordRef * ErrWrite :=
  (Some (ODRecord 1), no_error).

Definition local_values : option (list CFStringRef) * ErrWrite :=
  (Some ["/Local/Default"%string], no_error).

(** A user who gives the old password, mistypes the confirmation once and
    then declines. *)
Definition world_declined : World :=
  sample_world 501 session_ok (0, 0) node_ok record_ok local_values no_error
    [Some "old"; Some "new1"; Some "new2"; Some ""]%string.


(** Root changing a local record: no old password is asked for. *)
Definition world_root_local : World :=
  sample_world 0 session_ok (0, 0) node_ok record_ok local_values no_error
    [Some "s3cret"; Some "s3cret"]%string.

(** A user who mistypes the confirmation twice and then gets it right. *)
Definition world_retry : World :=
  sample_world 0 session_ok (0, 0) node_ok record_ok local_values no_error
    [Some "new1"; Some "new2"; Some "abc"; Some "abd";
     Some "s3cret"; Some "s3cret"]%string.

(** The daemon is down and the host is in multi-user mode. *)
Definition world_daemon_down : World :=
  sample_world 501 session_down (0, 0) node_ok record_ok local_values
    no_error [].

(** The daemon is down and the kernel query itself fails. *)
Definition world_sysctl_fails : World :=
  sample_world 501 session_down (-1, 0) node_ok record_ok local_values
    no_error [].

(** Single-user mode: the daemon is down, the loader succeeds, but no
    session can be created afterwards and the node cannot be opened. *)
Definition world_single_user : World :=
  sample_world 0 session_down (0, 1)
    (None, Some (Some (sample_error 2100 "Node not found")))
    record_ok local_values no_error [].

(** A user who gives a new password and then closes the terminal. *)
Definition world_new_only : World :=
  sample_world 0 session_ok (0, 0) node_ok record_ok local_values no_error
    [Some "abc"%string].

(** Root, no location given, and a record without a node location. *)
Definition world_root_no_location : World :=
  sample_world 0 session_ok (0, 0) node_ok record_ok (None, no_error)
    no_error [Some "s3cret"; Some "s3cret"]%string.

(** ** Vocabulary of the further properties *)

(** The calls of the loader: the process is forked, replaced and waited
    for, and failures are reported with [perror]. *)
Definition is_process_event (e : Event) : bool :=
  match e with
  | CallFork | CallExecl _ _ | CallWaitpid | Perror _ => true
  | _ => false
  end.

(** The condition under which [load_DirectoryServicesLocal] answers 1 in
    the parent. *)
Definition loader_ok (w : World) : bool :=
  negb (fork w =? -1) && negb (fst (waitpid w) =? -1) &&
  WIFEXITED w (snd (waitpid w)) && (WEXITSTATUS w (snd (waitpid w)) =? 0).

Definition launchctl : string := "/bin/launchctl".

Definition plist : string :=
  "/System/Library/LaunchDaemons/com.apple.DirectoryServicesLocal.plist".

(** What the parent logs in [load_DirectoryServicesLocal]. *)
Definition loader_events (w : World) : list Event :=
  CallFork ::
  (if fork w =? -1 then [Perror "launchctl"]
   else repeat CallWaitpid (S (waitpid_eintr w)) ++
        (if fst (waitpid w) =? -1 then [Perror "launchctl"] else [])).

(** The calls into Open Directory. *)
Definition is_directory_call (e : Event) : bool :=
  match e with
  | CallSessionCreate _
  | CallNodeCreateWithName _ _ | CallNodeCreateWithNodeType _
  | CallNodeCopyRecord _ _ | CallRecordCopyValues _
  | CallSetNodeCredentialsExtended _ _ | CallChangePassword _ _ _ => true
  | _ => false
  end.

(** What the forked child logs in [load_DirectoryServicesLocal]. *)
Definition child_events (w : World) : list Event :=
  [CallFork; CallExecl launchctl [launchctl; "load"%string; plist]]
  ++ if execl_returns w then [Perror "launchctl"] else [].

(** The forked child of a host in single-user mode whose daemon is down;
    [execl] fails. *)
Definition world_child : World :=
  mkWorld "passwd" 1024%nat
    (fun status => Z.land status 127 =? 0)
    (fun status => Z.land (Z.shiftr status 8) 255)
    10002
    0 (fun _ => (0, 1)) 0 true 0%nat (0, 0)
    (fun _ => true) true
    session_down
    (fun _ _ => node_ok) (fun _ => node_ok) (fun _ _ => record_ok)
    (fun _ => local_values)
    (fun _ _ => no_error) (fun _ _ _ => no_error)
    [].

(** Single-user mode with the daemon down, and a loader that exits with
    status 1. *)
Definition world_loader_fails : World :=
  mkWorld "passwd" 1024%nat
    (fun status => Z.land status 127 =? 0)
    (fun status => Z.land (Z.shiftr status 8) 255)
    10002
    0 (fun _ => (0, 1)) 77 false 2%nat (77, 256)
    (fun _ => true) true
    session_down
    (fun _ _ => node_ok) (fun _ => node_ok) (fun _ _ => record_ok)
    (fun _ => local_values)
    (fun _ _ => no_error) (fun _ _ _ => no_error)
    [].

(** What the new password loop logs: its two prompts and its two lines. *)
Definition is_loop_event (e : Event) : bool :=
  match e with
  | CallGetpass p _ => String.eqb p new_prompt || String.eqb p retype_prompt
  | Stdout s => String.eqb s mismatch_line || String.eqb s unchanged_line
  | _ => false
  end.

(** The state after the prompt for the old password. *)
Definition after_oldpass (w : World) (r : Resolved) (st : State) : State :=
  mkState (master_mode st) (error st)
    (match input st with
     | Some s :: _ => zeroes (String.length s)
     | _ => passbuf st
     end)
    (tl (input st))
    (output st ++ [CallGetpass (old_prompt w r) (hd None (input st))]).

(** An ordinary user who authenticates as an administrator. *)
Definition world_admin : World :=
  sample_world 501 session_ok (0, 0) node_ok record_ok local_values no_error
    [Some "adminpw"; Some "n3w"; Some "n3w"]%string.

(** The node creation of an invocation: by name when a location is in
    force, and by the authentication node type otherwise. *)
Definition node_event (session : option ODSessionRef)
    (loc : option CFStringRef) : Event :=
  match loc with
  | Some l => CallNodeCreateWithName session l
  | None => CallNodeCreateWithNodeType session
  end.

Definition node_result (w : World) (session : option ODSessionRef)
    (loc : option CFStringRef) : option ODNodeRef * ErrWrite :=
  match loc with
  | Some l => ODNodeCreateWithName w session l
  | None => ODNodeCreateWithNodeType w session
  end.

(** The error slot after the first session creation of an invocation. *)
Definition first_session_error (w : World) : option CFErrorRef :=
  match snd (ODSessionCreate w None) with
  | Some e => e
  | None => None
  end.

(** The first session creation fails with an error other than the
    daemon-not-running one. *)
Definition world_session_refused : World :=
  sample_world 501
    (fun _ => (None, Some (Some (sample_error 10003 "Session refused"))))
    (0, 0) (None, Some (Some (sample_error 2100 "Node not found")))
    record_ok local_values no_error [].

(** Nobody of that name, and no error either. *)
Definition world_unknown_user : World :=
  sample_world 501 session_ok (0, 0) node_ok (None, no_error)
    local_values no_error [].

(** The step of the flow a call belongs to: connecting (with the
    single-user bootstrap), node, record, node location of the record,
    prompts, commit.  Printing belongs to no step. *)
Definition stage (e : Event) : option nat :=
  match e with
  | CallSessionCreate _ | CallSysctlbyname _
  | CallFork | CallExecl _ _ | CallWaitpid => Some 0%nat
  | CallNodeCreateWithName _ _ | CallNodeCreateWithNodeType _ => Some 1%nat
  | CallNodeCopyRecord _ _ => Some 2%nat
  | CallRecordCopyValues _ => Some 3%nat
  | CallGetpass _ _ => Some 4%nat
  | CallSetNodeCredentialsExtended _ _ | CallChangePassword _ _ _ =>
      Some 5%nat
  | Stdout _ | Stderr _ | Perror _ => None
  end.

Definition stages (evs : list Event) : list nat :=
  flat_map (fun e => match stage e with Some n => [n] | None => [] end) evs.

(** A later call is of a later step; only connecting and prompting may
    take several calls. *)
Definition follows (m n : nat) : Prop :=
  (m < n)%nat \/ (m = n /\ (m = 0%nat \/ m = 4%nat)).

(** A run of steps in order, all between [lo] and [hi]. *)
Definition chunk (lo hi : nat) (l : list nat) : Prop :=
  StronglySorted follows l /\ Forall (fun n => (lo <= n <= hi)%nat) l.

(** A terminal whose replies cannot be converted to a [CFStringRef]. *)
Definition world_bad_bytes : World :=
  mkWorld "passwd" 1024%nat
    (fun status => Z.land status 127 =? 0)
    (fun status => Z.land (Z.shiftr status 8) 255)
    10002
    0 (fun _ => (0, 0)) 77 false 0%nat (77, 0)
    (fun _ => false) true
    session_ok
    (fun _ _ => node_ok) (fun _ => node_ok) (fun _ _ => record_ok)
    (fun _ => local_values)
    (fun _ _ => no_error) (fun _ _ _ => no_error)
    [Some "p"; Some "p"]%string.

(** A reply of bytes that are no UTF-8 text. *)
Definition bad_bytes : string := String (ascii_of_nat 233) EmptyString.

(** An ordinary user whose old password is typed in bytes that cannot be
    converted. *)
Definition world_bad_old_password : World :=
  mkWorld "passwd" 1024%nat
    (fun status => Z.land status 127 =? 0)
    (fun status => Z.land (Z.shiftr status 8) 255)
    10002
    501 (fun _ => (0, 0)) 77 false 0%nat (77, 0)
    (fun s => negb (String.eqb s bad_bytes)) true
    session_ok
    (fun _ _ => node_ok) (fun _ => node_ok) (fun _ _ => record_ok)
    (fun _ => local_values)
    (fun _ _ => no_error) (fun _ _ _ => no_error)
    [Some bad_bytes; Some "n3w"; Some "n3w"]%string.

(** Root, whose new password is typed in bytes that cannot be converted
    and is then confirmed with something else. *)
Definition world_bad_new_password : World :=
  mkWorld "passwd" 1024%nat
    (fun status => Z.land status 127 =? 0)
    (fun status => Z.land (Z.shiftr status 8) 255)
    10002
    0 (fun _ => (0, 0)) 77 false 0%nat (77, 0)
    (fun s => negb (String.eqb s bad_bytes)) true
    session_ok
    (fun _ _ => node_ok) (fun _ => node_ok) (fun _ _ => record_ok)
    (fun _ => local_values)
    (fun _ _ => no_error) (fun _ _ _ => no_error)
    [Some bad_bytes; Some "n3w"; Some "n3w"; Some "n3w"]%string.

(** The read of the node location fails and leaves its error; the
    operation succeeds and stores nothing. *)
Definition world_stale_error : World :=
  mkWorld "passwd" 1024%nat
    (fun status => Z.land status 127 =? 0)
    (fun status => Z.land (Z.shiftr status 8) 255)
    10002
    501 (fun _ => (0, 0)) 77 false 0%nat (77, 0)
    (fun _ => true) true
    session_ok
    (fun _ _ => node_ok) (fun _ => node_ok) (fun _ _ => record_ok)
    (fun _ => (None, Some (Some (sample_error 4100 "Attribute not found"))))
    (fun _ _ => None) (fun _ _ _ => None)
    [Some "old"; Some "n3w"; Some "n3w"]%string.

(** * Properties *)

(** ** Traces *)

Lemma extends_refl st : extends st st [].
Proof. unfold extends. now rewrite app_nil_r. Qed.

Lemma extends_trans st1 st2 st3 evs1 evs2 :
  extends st1 st2 evs1 -> extends st2 st3 evs2 ->
  extends st1 st3 (evs1 ++ evs2).
Proof. unfold extends. intros -> ->. now rewrite app_assoc. Qed.

Lemma logged_nil st : logged [] st = st.
Proof. destruct st. unfold logged. simpl. now rewrite app_nil_r. Qed.

Lemma logged_logged evs1 evs2 st :
  logged evs2 (logged evs1 st) = logged (evs1 ++ evs2) st.
Proof. unfold logged. simpl. now rewrite app_assoc. Qed.

Lemma emit_logged e st : emit e st = Next tt (logged [e] st).
Proof. reflexivity. Qed.

Lemma show_error_logged w err st :
  show_error w err st = Next tt (logged (shown w err) st).
Proof.
  destruct err as [e|]; simpl.
  - unfold bind, cfprintf, ret.
    destruct (CFErrorCopyDescription e), (CFErrorCopyFailureReason e),
      (CFErrorCopyRecoverySuggestion e);
      rewrite ?emit_logged, ?logged_logged; reflexivity.
  - unfold ret. now rewrite logged_nil.
Qed.

Lemma shown_background w err : Forall background (shown w err).
Proof.
  destruct err as [e|]; simpl; [|constructor].
  destruct (CFErrorCopyDescription e), (CFErrorCopyFailureReason e),
    (CFErrorCopyRecoverySuggestion e);
    repeat constructor.
Qed.

Lemma waitpid_loop_logged w n st :
  waitpid_loop w n st = Next (waitpid w) (logged (repeat CallWaitpid (S n)) st).
Proof.
  revert st. induction n as [|n IH]; intros st.
  - reflexivity.
  - change (waitpid_loop w (S n) st)
      with (waitpid_loop w n (logged [CallWaitpid] st)).
    rewrite IH, logged_logged. reflexivity.
Qed.

(** ** Symbolic execution *)

Ltac exec_step :=
  first
    [ rewrite show_error_logged
    | rewrite waitpid_loop_logged
    | progress unfold bind, ret, halt, emit, call, store_error, get_error,
        get_master_mode, set_master_mode, exit, Return
    | progress cbn [fst snd logged master_mode error passbuf input output
                    state_of]
    | match goal with
      | |- context [match ?x with _ => _ end] =>
          lazymatch x with
          | context [match _ with _ => _ end] => fail
          | newpass_loop _ _ _ => fail
          | _ => destruct x eqn:?
          end
      end ].

Ltac exec := repeat exec_step.

Ltac trace_tail :=
  unfold extends; cbn [output logged];
  first [ rewrite <- ?app_assoc; reflexivity | symmetry; apply app_nil_r ].

Ltac all_background :=
  repeat first
    [ apply Forall_nil
    | apply shown_background
    | apply Forall_app; split
    | apply Forall_cons; [split; reflexivity|]
    | apply Forall_forall; intros ? ?Hin;
      apply repeat_spec in Hin; subst; split; reflexivity ].

Ltac quiet :=
  unfold quietly; cbn [passbuf input];
  repeat split; try reflexivity;
  eexists; split; [trace_tail | all_background].

Lemma is_singleuser_run w st :
  exists v, is_singleuser w st = Next v (logged [CallSysctlbyname "kern.singleuser"] st)
    /\ v = (let '(rc, su) := sysctlbyname w "kern.singleuser" in
            if negb (rc =? 0) then 0 else int_of_uint32 su).
Proof.
  unfold is_singleuser. exec; eexists; split; reflexivity.
Qed.

Lemma load_DirectoryServicesLocal_quiet w st :
  match load_DirectoryServicesLocal w st with
  | Next v st' => quietly st st' /\ error st' = error st /\ fork w <> 0
  | Halt o st' =>
      quietly st st' /\ error st' = error st /\ fork w = 0 /\
      (o = Replaced \/ o = Exited 1)
  end.
Proof.
  unfold load_DirectoryServicesLocal. exec.
  all: try (split; [quiet|]); try (split; [reflexivity|]).
  all: try lia; auto.
  all: try (rewrite Z.eqb_eq in *; auto; lia).
Qed.

Lemma od_connect_quiet w loc st :
  match od_connect w loc st with
  | Next (s, loc') st' =>
      quietly st st' /\ master_mode st' = master_mode st /\
      (loc' = loc \/ (loc = None /\ loc' = Some "/Local/Default"%string))
  | Halt o st' => quietly st st' /\ resolve_halt w o
  end.
Proof.
  unfold od_connect, and_then, is_singleuser, load_DirectoryServicesLocal,
    resolve_halt.
  exec.
  all: repeat match goal with
         | H : (_, _) = (_, _) |- _ => inversion H; subst; clear H
         | H : Next _ _ = Next _ _ |- _ => inversion H; subst; clear H
         | H : Next _ _ = Halt _ _ |- _ => discriminate H
         | H : Halt _ _ = Next _ _ |- _ => discriminate H
         | H : Halt _ _ = Halt _ _ |- _ => inversion H; subst; clear H
         end.
  all: (split; [quiet|]).
  all: rewrite ?Z.eqb_eq in *; auto.
Qed.

Lemma quietly_refl st : quietly st st.
Proof.
  repeat split. exists []. split; [apply extends_refl | constructor].
Qed.

Lemma quietly_trans st1 st2 st3 :
  quietly st1 st2 -> quietly st2 st3 -> quietly st1 st3.
Proof.
  intros (Hb1 & Hi1 & evs1 & He1 & Hf1) (Hb2 & Hi2 & evs2 & He2 & Hf2).
  repeat split; try congruence.
  exists (evs1 ++ evs2). split.
  - eapply extends_trans; eassumption.
  - apply Forall_app. now split.
Qed.

Ltac inv_steps :=
  repeat match goal with
         | H : (_, _) = (_, _) |- _ => inversion H; subst; clear H
         | H : Some _ = Some _ |- _ => inversion H; subst; clear H
         | H : Next _ _ = Next _ _ |- _ => inversion H; subst; clear H
         | H : Next _ _ = Halt _ _ |- _ => discriminate H
         | H : Halt _ _ = Next _ _ |- _ => discriminate H
         | H : Halt _ _ = Halt _ _ |- _ => inversion H; subst; clear H
         end.

Lemma od_copy_record_quiet w u username session loc st :
  match od_copy_record w u username session loc st with
  | Next r st' => quietly st st' /\ master_mode st' = master_mode st
  | Halt o st' => quietly st st' /\ o = Returned (-1)
  end.
Proof.
  unfold od_copy_record. exec.
  all: split; [quiet | reflexivity].
Qed.

Lemma od_resolve_quiet w u l a st :
  match od_resolve w u l a st with
  | Next r st' =>
      quietly st st' /\
      master_mode st' = Z.b2z (getuid w =? 0) /\
      u = Some (uname r) /\
      username r = uname r /\
      aname r = match a with Some x => x | None => uname r end /\
      authname r = CFStringCreateWithCString w (aname r) /\
      change_pass_on_self r = strcmp_eq (aname r) (uname r) /\
      (location r = supplied w l \/
       (supplied w l = None /\ location r = Some "/Local/Default"%string))
  | Halt o st' => quietly st st' /\ resolve_halt w o
  end.
Proof.
  unfold od_resolve.
  destruct u as [u|]; [|split; [apply quietly_refl | now left]].
  unfold bind at 1. unfold set_master_mode at 1.
  destruct (CFStringCreateWithCString w u) as [u'|] eqn:Hu;
    [|split; [quiet | now left]].
  assert (u' = u) as ->.
  { unfold CFStringCreateWithCString in Hu.
    destruct (CFStringCreateWithCString_ok w u); congruence. }
  unfold bind at 1.
  match goal with
  | |- context [od_connect w ?loc ?s] =>
      pose proof (od_connect_quiet w loc s) as Hc;
      destruct (od_connect w loc s) as [[session loc'] st1|o st1]
  end.
  - destruct Hc as (Hq1 & Hm1 & Hloc).
    unfold bind at 1.
    pose proof (od_copy_record_quiet w u u session loc' st1) as Hr.
    destruct (od_copy_record w u u session loc' st1) as [r st2|o st2].
    + destruct Hr as (Hq2 & Hm2). unfold ret. cbn [uname username aname
        authname change_pass_on_self location].
      split; [|repeat split; try reflexivity].
      * eapply quietly_trans; [|eassumption].
        eapply quietly_trans; [|eassumption]. quiet.
      * rewrite Hm2, Hm1. reflexivity.
      * exact Hloc.
    + destruct Hr as (Hq2 & ->). split; [|now left].
      eapply quietly_trans; [|eassumption].
      eapply quietly_trans; [|eassumption]. quiet.
  - destruct Hc as (Hq1 & Hh). split; [|assumption].
    eapply quietly_trans; [|eassumption]. quiet.
Qed.

(** ** The new password loop *)

Lemma background_calm e : background e -> calm e.
Proof. destruct e; intros [Hp Hm]; split; try reflexivity; discriminate. Qed.

Lemma newpass_loop_fuel w f1 : forall f2 st,
  (List.length (input st) < f1)%nat -> (List.length (input st) < f2)%nat ->
  newpass_loop w f1 st = newpass_loop w f2 st.
Proof.
  induction f1 as [|f1 IH]; intros f2 st H1 H2; [lia|].
  destruct f2 as [|f2]; [lia|].
  cbn [newpass_loop]. unfold getpass, memset_zero, unchanged, mismatch.
  exec; try reflexivity.
  all: apply IH; cbn [input];
    repeat match goal with
           | H : input _ = _ |- _ => rewrite H in *; clear H
           end;
    cbn [List.length input] in *; lia.
Qed.

Lemma od_newpass_fuel w fuel st :
  (List.length (input st) < fuel)%nat ->
  newpass_loop w fuel st = od_newpass w st.
Proof. intros H. unfold od_newpass. apply newpass_loop_fuel; lia. Qed.

Lemma loop_post_step w st st1 pre res :
  master_mode st1 = master_mode st ->
  error st1 = error st ->
  output st1 = output st ++ pre ->
  Forall calm pre ->
  incl (input st1) (input st) ->
  loop_post w st1 res -> loop_post w st res.
Proof.
  intros Hm He Ho Hp Hi (Hm' & He' & evs & Hc & Hres).
  split; [congruence|]. split; [congruence|].
  exists (pre ++ evs). split; [apply Forall_app; now split|].
  destruct res as [np st'|o st'].
  - destruct Hres as (c & Hout & Hrest). exists c. split; [|exact Hrest].
    rewrite Hout, Ho, <- !app_assoc. reflexivity.
  - destruct Hres as [(-> & reply & Hd & Hout)|(-> & Hout & s & Hin & Hs)].
    + left. split; [reflexivity|]. exists reply. split; [exact Hd|].
      rewrite Hout, Ho, <- !app_assoc. reflexivity.
    + right. split; [reflexivity|]. split.
      * rewrite Hout, Ho, <- !app_assoc. reflexivity.
      * exists s. split; [apply Hi, Hin | exact Hs].
Qed.

Lemma eqb_length_nonempty (s : string) :
  (0 <? String.length s)%nat = true -> s <> ""%string.
Proof. destruct s; [discriminate|congruence]. Qed.

Lemma CFString_eq w s c :
  CFStringCreateWithCString w s = Some c -> c = s.
Proof.
  unfold CFStringCreateWithCString.
  destruct (CFStringCreateWithCString_ok w s); congruence.
Qed.

Lemma CFString_none w s :
  CFStringCreateWithCString w s = None ->
  CFStringCreateWithCString_ok w s = false.
Proof.
  unfold CFStringCreateWithCString.
  destruct (CFStringCreateWithCString_ok w s); congruence.
Qed.

Lemma calm_new_reply s :
  (0 <? String.length s)%nat = true -> calm (CallGetpass new_prompt (Some s)).
Proof.
  intros H. split; [reflexivity|].
  unfold is_declined_new, declined. rewrite H. apply andb_false_r.
Qed.

Ltac all_calm :=
  repeat first
    [ apply Forall_nil
    | apply Forall_app; split
    | apply Forall_cons;
      [first [ apply calm_new_reply; assumption | split; reflexivity ]|] ].

Lemma newpass_loop_post w fuel : forall st,
  (List.length (input st) < fuel)%nat ->
  loop_post w st (newpass_loop w fuel st).
Proof.
  induction fuel as [|fuel IH]; intros st Hfuel; [lia|].
  cbn [newpass_loop]. unfold getpass, memset_zero, unchanged, mismatch.
  exec.
  all: repeat match goal with
         | H : CFStringCreateWithCString _ _ = Some _ |- _ =>
             apply CFString_eq in H; subst
         | H : CFStringCreateWithCString _ _ = None |- _ =>
             apply CFString_none in H
         | H : CFEqual _ _ = true |- _ => apply String.eqb_eq in H; subst
         end.
  all: try (eapply loop_post_step; [| | | | |apply IH];
            cbn [master_mode error output input];
            [reflexivity|reflexivity|trace_tail|all_calm|
             match goal with H : input _ = _ |- _ => rewrite H end;
             auto using incl_tl, incl_refl, incl_nil_l|
             cbn [List.length] in *; lia]).
  all: unfold loop_post; cbn [state_of master_mode error output passbuf];
    (split; [reflexivity|]); (split; [reflexivity|]).
  all: lazymatch goal with
       | |- context [Faulted = Exited 0] =>
           eexists; split;
           [|right; split; [reflexivity|]; split; [trace_tail|]];
           [all_calm|];
           eexists; split; [|eassumption];
           match goal with H : input _ = _ |- _ => rewrite H end; now left
       | |- context [Exited 0 = Exited 0] =>
           exists []; split; [constructor|];
           left; split; [reflexivity|]; eexists; split;
           [|cbn [app]; rewrite <- app_assoc; reflexivity];
           cbn [declined];
           match goal with
           | H : _ = false |- _ => now rewrite H
           | _ => reflexivity
           end
       | |- _ =>
           exists []; split; [constructor|];
           eexists; split; [cbn [app]; rewrite <- app_assoc; reflexivity|];
           split; [reflexivity|]; split; [|reflexivity];
           match goal with
           | H : (0 <? String.length _)%nat = true |- _ =>
               exact (eqb_length_nonempty _ H)
           end
       end.
Qed.

Lemma od_newpass_post w st : loop_post w st (od_newpass w st).
Proof. unfold od_newpass. apply newpass_loop_post. lia. Qed.

(** ** The trust policy *)

Lemma compare_local l :
  is_kCFCompareEqualTo (CFStringCompareWithOptions l "/Local/" 0 7)
  = prefix "/Local/" l.
Proof.
  unfold CFStringCompareWithOptions.
  destruct (prefix "/Local/" l) eqn:Hp.
  - apply prefix_correct in Hp. cbn [String.length] in Hp. rewrite Hp.
    reflexivity.
  - destruct (String.compare (substring 0 7 l) "/Local/") eqn:Hc;
      try reflexivity.
    apply String.compare_eq_iff in Hc.
    assert (prefix "/Local/" l = true) by now apply prefix_correct.
    congruence.
Qed.

Lemma od_policy_post w r st :
  match od_policy w r st with
  | Next (loc, b) st' =>
      quietly st st' /\ master_mode st' = master_mode st /\
      loc = location_used w r /\
      b = negb (is_true (master_mode st)) || negb (begins_local loc)
  | Halt o st' =>
      quietly st st' /\ o = Faulted /\
      is_true (master_mode st) = true /\ location_used w r = None
  end.
Proof.
  unfold od_policy, location_used.
  destruct (ODRecordCopyValues w (rec r)) as [values ew].
  exec; inv_steps.
  all: repeat match goal with
         | H : negb _ = true |- _ => apply negb_true_iff in H
         | H : negb _ = false |- _ => apply negb_false_iff in H
         end.
  all: repeat split; try quiet; try reflexivity; try assumption.
  all: cbn [begins_local]; rewrite ?compare_local;
    try match goal with H : is_true _ = _ |- _ => rewrite H end; reflexivity.
Qed.

(** ** The old password *)

Lemma old_prompt_not_new w r : String.eqb (old_prompt w r) new_prompt = false.
Proof.
  unfold old_prompt, truncate, new_prompt.
  destruct (change_pass_on_self r), (Nat.pred (BUFSIZ w)); reflexivity.
Qed.

Lemma od_oldpass_post w r needs_auth st :
  exists st' evs,
    od_oldpass w r needs_auth st =
      Next (if needs_auth then converted w (hd None (input st)) else None) st'
    /\
    master_mode st' = master_mode st /\ error st' = error st /\
    extends st st' evs /\ Forall calm evs /\
    evs = (if needs_auth
           then [CallGetpass (old_prompt w r) (hd None (input st))]
           else []).
Proof.
  assert (Hc : forall reply, calm (CallGetpass (old_prompt w r) reply)).
  { intros reply. split; [reflexivity|]. cbn.
    now rewrite old_prompt_not_new. }
  unfold od_oldpass. fold (old_prompt w r).
  unfold getpass, memset_zero.
  destruct needs_auth; exec; cbn [hd converted].
  all: eexists; eexists; split; [reflexivity|].
  all: cbn [master_mode error]; repeat split; try trace_tail.
  all: auto using Forall_nil, Forall_cons.
Qed.

(** ** The commit *)

Lemma od_commit_run w r needs_auth oldpass newpass st :
  let err := match commit_store w r needs_auth oldpass newpass with
             | None => error st
             | Some e => e
             end in
  od_commit w r needs_auth oldpass newpass st =
    if items_present r needs_auth oldpass newpass then
      Halt (match err with Some _ => Exited 1 | None => Returned 0 end)
           (mkState (master_mode st) err (passbuf st) (input st)
              (output st ++
                 commit_event r needs_auth oldpass newpass :: shown w err))
    else Halt Faulted st.
Proof.
  unfold od_commit, commit_store, commit_event, items_present, CFArrayCreate.
  destruct needs_auth.
  - destruct (forallb _ _); [|reflexivity].
    exec; unfold logged;
      cbn [shown master_mode error passbuf input output];
      rewrite <- ?app_assoc; reflexivity.
  - exec; unfold logged;
      cbn [shown master_mode error passbuf input output];
      rewrite <- ?app_assoc; reflexivity.
Qed.

(** ** How an invocation ends *)

Lemma quietly_initial w st :
  quietly (initial w) st -> Forall background (output st).
Proof. intros (_ & _ & evs & He & Hf). now rewrite He. Qed.

Lemma commit_event_mutation r na op np :
  is_mutation (commit_event r na op np) = true.
Proof. now destruct na. Qed.

Lemma Forall_background_calm evs : Forall background evs -> Forall calm evs.
Proof. intros H. eapply Forall_impl; [|exact H]. apply background_calm. Qed.

(** The steps of an invocation that reaches the policy, the prompt for
    the old password, the loop and the commit. *)
Lemma od_passwd_steps w u l a r st1 :
  od_resolve w u l a (initial w) = Next r st1 ->
  od_passwd w u l a (initial w) = od_change w r st1.
Proof. intros H. unfold od_passwd, bind. now rewrite H. Qed.

Lemma od_change_steps w r st1 loc b st2 :
  od_policy w r st1 = Next (loc, b) st2 ->
  od_change w r st1 =
    (oldpass <- od_oldpass w r b ;;
     newpass <- od_newpass w ;;
     od_commit w r b oldpass newpass) st2.
Proof. intros H. unfold od_change. unfold bind at 1. now rewrite H. Qed.

Lemma calm_new_nonempty c :
  c <> ""%string -> calm (CallGetpass new_prompt (Some c)).
Proof.
  intros H. apply calm_new_reply. destruct c; [congruence|reflexivity].
Qed.

Lemma invoke_ending w u l a o st :
  invoke w u l a = (o, st) -> Ending w o st.
Proof.
  unfold invoke, run. intros H.
  pose proof (od_resolve_quiet w u l a (initial w)) as Hr.
  destruct (od_resolve w u l a (initial w)) as [r st1|o1 st1] eqn:Er.
  2: { unfold od_passwd, bind in H. rewrite Er in H. inv_steps.
       destruct Hr as [Hq Hh]. apply EndResolve; [|exact Hh].
       now apply (quietly_initial w). }
  destruct Hr as (Hq1 & _).
  rewrite (od_passwd_steps _ _ _ _ _ _ Er) in H.
  pose proof (od_policy_post w r st1) as Hp.
  destruct (od_policy w r st1) as [[loc b] st2|o2 st2] eqn:Ep.
  2: { unfold od_change, bind in H. rewrite Ep in H. inv_steps.
       destruct Hp as (Hq2 & -> & _). apply EndPolicy.
       apply (quietly_initial w). eapply quietly_trans; eassumption. }
  destruct Hp as (Hq2 & _).
  rewrite (od_change_steps _ _ _ _ _ _ Ep) in H.
  assert (Hb2 : Forall calm (output st2)).
  { apply Forall_background_calm, (quietly_initial w).
    eapply quietly_trans; eassumption. }
  destruct (od_oldpass_post w r b st2)
    as (st3 & evs3 & Eo & _ & _ & Hx3 & Hc3 & _).
  unfold bind at 1 in H. rewrite Eo in H.
  assert (Hb3 : Forall calm (output st3)).
  { rewrite Hx3. apply Forall_app. now split. }
  pose proof (od_newpass_post w st3) as Hl.
  unfold bind at 1 in H.
  destruct (od_newpass w st3) as [np st4|o4 st4] eqn:En.
  - destruct Hl as (_ & _ & evs4 & Hc4 & c & Hout & -> & Hne & _).
    cbn [state_of] in *.
    assert (Hb4 : Forall calm (output st4)).
    { rewrite Hout. apply Forall_app. split; [exact Hb3|].
      apply Forall_app. split; [exact Hc4|].
      apply Forall_cons; [now apply calm_new_nonempty|].
      repeat constructor. }
    rewrite od_commit_run in H.
    destruct (items_present r b _ (Some c)); inv_steps.
    + eapply EndCommit with (pre := output st4)
                            (op := commit_event r b _ (Some c)).
      * exact Hb4.
      * apply commit_event_mutation.
      * reflexivity.
      * reflexivity.
    + apply EndLoopFault. exact Hb4.
  - inv_steps.
    destruct Hl as (_ & _ & evs4 & Hc4 &
                    [(-> & reply & Hd & Hout)|(-> & Hout & _)]);
      cbn [state_of fst snd] in *.
    + eapply EndDeclined with (pre := output st3 ++ evs4) (reply := reply).
      * apply Forall_app. now split.
      * exact Hd.
      * rewrite Hout, <- app_assoc. reflexivity.
    + apply EndLoopFault. rewrite Hout. apply Forall_app. now split.
Qed.

(** ** Claims about the way an invocation ends *)

Lemma declined_not_calm reply :
  declined reply = true -> ~ calm (CallGetpass new_prompt reply).
Proof.
  intros H [_ Hc]. cbn in Hc. rewrite H in Hc. discriminate.
Qed.

Lemma calm_not_mutation evs :
  Forall calm evs -> Forall (fun e => is_mutation e = false) evs.
Proof. intros H. eapply Forall_impl; [|exact H]. now intros e [Hm _]. Qed.

(** C3: whenever the reply to "New password:" is empty or missing, in any
    round of the loop, the program prints "Password unchanged.", exits
    with status 0, and the invocation contains no set-credentials and no
    change-password operation. *)
Theorem C3_declined_no_mutation w u l a reply :
  In (CallGetpass new_prompt reply) (output (snd (invoke w u l a))) ->
  declined reply = true ->
  fst (invoke w u l a) = Exited 0 /\
  (exists pre,
     output (snd (invoke w u l a)) = pre ++ [Stdout unchanged_line]) /\
  Forall (fun e => is_mutation e = false) (output (snd (invoke w u l a))).
Proof.
  intros Hin Hd.
  destruct (invoke w u l a) as [o st] eqn:E. cbn [fst snd] in *.
  pose proof (declined_not_calm reply Hd) as Hn.
  assert (Hall : forall evs, Forall calm evs ->
                 ~ In (CallGetpass new_prompt reply) evs).
  { intros evs Hf Hi. rewrite Forall_forall in Hf. exact (Hn (Hf _ Hi)). }
  apply invoke_ending in E.
  destruct E as [o st Hb Hh|st Hb|st pre r Hc Hr Hout|st Hc
                |o st pre op Hc Hm Hout Ho].
  - exfalso. apply (Hall _ (Forall_background_calm _ Hb) Hin).
  - exfalso. apply (Hall _ (Forall_background_calm _ Hb) Hin).
  - split; [reflexivity|]. split.
    + exists (pre ++ [CallGetpass new_prompt r]).
      rewrite Hout, <- app_assoc. reflexivity.
    + rewrite Hout. apply Forall_app. split; [now apply calm_not_mutation|].
      repeat constructor.
  - exfalso. apply (Hall _ Hc Hin).
  - exfalso. rewrite Hout in Hin. apply in_app_or in Hin.
    destruct Hin as [Hin|[Hin|Hin]].
    + apply (Hall _ Hc Hin).
    + subst op. discriminate Hm.
    + apply (Hall _ (Forall_background_calm _ (shown_background w _)) Hin).
Qed.

Lemma C3_declined_no_mutation_witness :
  fst (invoke world_declined (Some "alice"%string) None None) = Exited 0 /\
  (exists pre,
     output (snd (invoke world_declined (Some "alice"%string) None None))
     = pre ++ [Stdout unchanged_line]) /\
  Forall (fun e => is_mutation e = false)
    (output (snd (invoke world_declined (Some "alice"%string) None None))).
Proof.
  apply (C3_declined_no_mutation world_declined (Some "alice"%string)
           None None (Some ""%string)).
  - vm_compute. do 9 right. left. reflexivity.
  - reflexivity.
Defined.



(** ** The trust policy and the commit *)

Lemma is_true_b2z b : is_true (Z.b2z b) = b.
Proof. now destruct b. Qed.

(** C1: in every invocation that reaches the policy step, the flag is
    true exactly when the caller is not root or the location used does not
    begin with "/Local/"; the location used is the first value of the
    record's node location attribute when there is one, and otherwise the
    location that was supplied or defaulted in single-user mode.  The flag
    is the one the rest of the invocation runs with. *)
Theorem C1_needs_auth_iff w u l a r st1 :
  od_resolve w u l a (initial w) = Next r st1 ->
  (location r = supplied w l \/
   (supplied w l = None /\ location r = Some "/Local/Default"%string)) /\
  (forall loc b st2,
     od_policy w r st1 = Next (loc, b) st2 ->
     loc = location_used w r /\
     (b = true <-> getuid w <> 0 \/ begins_local loc = false) /\
     od_passwd w u l a (initial w) =
       (oldpass <- od_oldpass w r b ;;
        newpass <- od_newpass w ;;
        od_commit w r b oldpass newpass) st2) /\
  (getuid w <> 0 \/ location_used w r <> None ->
   exists b st2, od_policy w r st1 = Next (location_used w r, b) st2).
Proof.
  intros Hr.
  pose proof (od_resolve_quiet w u l a (initial w)) as Hq.
  rewrite Hr in Hq.
  destruct Hq as (_ & Hmm & _ & _ & _ & _ & _ & Hloc).
  split; [exact Hloc|].
  pose proof (od_policy_post w r st1) as Hp.
  rewrite Hmm, is_true_b2z in Hp.
  split.
  - intros loc b st2 Ep. rewrite Ep in Hp.
    destruct Hp as (_ & _ & -> & ->).
    split; [reflexivity|]. split.
    + rewrite orb_true_iff, !negb_true_iff, Z.eqb_neq. reflexivity.
    + rewrite (od_passwd_steps _ _ _ _ _ _ Hr).
      apply (od_change_steps _ _ _ _ _ _ Ep).
  - intros Hok.
    destruct (od_policy w r st1) as [[loc b] st2|o st2].
    + destruct Hp as (_ & _ & -> & _). now exists b, st2.
    + destruct Hp as (_ & _ & Hroot & Hnone). exfalso.
      apply Z.eqb_eq in Hroot. destruct Hok as [Hu|Hl]; contradiction.
Qed.

Lemma C1_needs_auth_iff_witness :
  exists r st1,
    od_resolve world_root_local (Some "alice"%string) None None
      (initial world_root_local) = Next r st1 /\
    location_used world_root_local r = Some "/Local/Default"%string /\
    exists st2,
      od_policy world_root_local r st1
        = Next (location_used world_root_local r, false) st2 /\
      (false = true <->
       getuid world_root_local <> 0 \/
       begins_local (location_used world_root_local r) = false).
Proof.
  eexists. eexists. split; [vm_compute; reflexivity|].
  split; [reflexivity|].
  eexists. split; [vm_compute; reflexivity|].
  eapply (C1_needs_auth_iff world_root_local (Some "alice"%string) None None).
  - vm_compute. reflexivity.
  - vm_compute. reflexivity.
Defined.

Lemma reaches_commit_run w u l a r b oldpass newpass st :
  reaches_commit w u l a r b oldpass newpass st ->
  invoke w u l a = run (od_commit w r b oldpass newpass) st /\
  Forall calm (output st).
Proof.
  intros (st1 & loc & st2 & st3 & Er & Ep & Eo & En). split.
  - unfold invoke, run.
    rewrite (od_passwd_steps _ _ _ _ _ _ Er),
            (od_change_steps _ _ _ _ _ _ Ep).
    unfold bind at 1. rewrite Eo. unfold bind at 1. rewrite En.
    reflexivity.
  - pose proof (od_resolve_quiet w u l a (initial w)) as Hr.
    rewrite Er in Hr. destruct Hr as (Hq1 & _).
    pose proof (od_policy_post w r st1) as Hp.
    rewrite Ep in Hp. destruct Hp as (Hq2 & _).
    destruct (od_oldpass_post w r b st2)
      as (st3' & evs3 & Eo' & _ & _ & Hx3 & Hc3 & _).
    rewrite Eo in Eo'. inv_steps.
    pose proof (od_newpass_post w st3') as Hl. rewrite En in Hl.
    destruct Hl as (_ & _ & evs4 & Hc4 & c & Hout & -> & Hne & _).
    rewrite Hout, Hx3.
    repeat (apply Forall_app; split); try assumption.
    + apply Forall_background_calm, (quietly_initial w).
      eapply quietly_trans; eassumption.
    + apply Forall_cons; [now apply calm_new_nonempty|].
      repeat constructor.
Qed.

Lemma filter_calm evs : Forall calm evs -> filter is_mutation evs = [].
Proof.
  induction 1 as [|e evs [Hm _] _ IH]; [reflexivity|].
  cbn [filter]. now rewrite Hm.
Qed.

(** X16: an invocation that reaches the commit step with every item of
    the operation present issues exactly one operation on the record.
    With the flag set it is the extended set-credentials call with the
    user name, the new password, the authenticating name and the old
    password; with the flag clear it is the change-password call with the
    old and the new password.  What decides the result is the error slot
    after the call, which holds what the operation stored, or what an
    earlier call left when the operation stored nothing: an error there
    is displayed and the process exits with status 1; otherwise the
    function returns 0. *)
Theorem X16_commit_operation w u l a r b oldpass newpass st :
  reaches_commit w u l a r b oldpass newpass st ->
  items_present r b oldpass newpass = true ->
  u = Some (username r) /\
  authname r =
    CFStringCreateWithCString w
      (match a with Some x => x | None => username r end) /\
  (b = true ->
   filter is_mutation (output (snd (invoke w u l a))) =
     [CallSetNodeCredentialsExtended
        (rec r) [Some (username r); newpass; authname r; oldpass]]) /\
  (b = false ->
   filter is_mutation (output (snd (invoke w u l a))) =
     [CallChangePassword (rec r) oldpass newpass]) /\
  error (snd (invoke w u l a)) =
    match commit_store w r b oldpass newpass with
    | Some e => e
    | None => error st
    end /\
  match error (snd (invoke w u l a)) with
  | Some e =>
      fst (invoke w u l a) = Exited 1 /\
      exists pre, output (snd (invoke w u l a)) = pre ++ shown w (Some e)
  | None => fst (invoke w u l a) = Returned 0
  end.
Proof.
  intros H Hitems.
  destruct (reaches_commit_run _ _ _ _ _ _ _ _ _ H) as [Hrun Hcalm].
  destruct H as (st1 & _ & _ & _ & Er & _).
  pose proof (od_resolve_quiet w u l a (initial w)) as Hr.
  rewrite Er in Hr.
  destruct Hr as (_ & _ & Hu & Hn & Ha & Hauth & _).
  rewrite Hrun. unfold run. rewrite od_commit_run, Hitems.
  cbn [fst snd output error].
  assert (Hf : forall err,
            filter is_mutation
              (output st ++ commit_event r b oldpass newpass :: shown w err)
            = [commit_event r b oldpass newpass]).
  { intros err. rewrite filter_app, (filter_calm _ Hcalm). cbn [app filter].
    rewrite commit_event_mutation.
    now rewrite (filter_calm _ (Forall_background_calm _
                                  (shown_background w err))). }
  split; [rewrite Hn; exact Hu|].
  split; [rewrite Hauth, Ha, Hn; reflexivity|].
  split; [intros ->; apply Hf|]. split; [intros ->; apply Hf|].
  split.
  - reflexivity.
  - destruct (match commit_store w r b oldpass newpass with
              | Some e => e
              | None => error st
              end) as [e|]; [|reflexivity].
    split; [reflexivity|].
    exists (output st ++ [commit_event r b oldpass newpass]).
    rewrite <- app_assoc. reflexivity.
Qed.

Lemma X16_commit_operation_witness :
  exists r st,
    reaches_commit world_admin (Some "bob"%string) None (Some "admin"%string)
      r true (Some "adminpw"%string) (Some "n3w"%string) st /\
    items_present r true (Some "adminpw"%string) (Some "n3w"%string) = true /\
    filter is_mutation
      (output (snd (invoke world_admin (Some "bob"%string) None
                      (Some "admin"%string))))
    = [CallSetNodeCredentialsExtended (rec r)
         [Some (username r); Some "n3w"%string; authname r;
          Some "adminpw"%string]] /\
    fst (invoke world_admin (Some "bob"%string) None (Some "admin"%string))
    = Returned 0.
Proof.
  eexists. eexists.
  match goal with |- ?A /\ _ => assert (H : A) end.
  { do 4 eexists. repeat split; vm_compute; reflexivity. }
  split; [exact H|].
  match goal with |- ?A /\ _ => assert (Hi : A) by reflexivity end.
  split; [exact Hi|].
  destruct (X16_commit_operation world_admin (Some "bob"%string) None
              (Some "admin"%string) _ true _ _ _ H Hi)
    as (_ & _ & Ht & _ & _ & Hres).
  split; [exact (Ht eq_refl)|].
  exact Hres.
Defined.

(** C2 fails on the code when an item of the extended operation is
    missing: here the old password that was typed cannot be converted, so
    [oldpass] is NULL, the array of the four items cannot be built, and
    no operation is issued at all. *)
Theorem C2_null_item_faults :
  invoke world_bad_old_password (Some "alice"%string) None None =
    (Faulted,
     mkState 0 None "n3w" []
       [CallSessionCreate None;
        CallNodeCreateWithNodeType (Some (ODSession 1));
        CallNodeCopyRecord (ODNode 1) "alice";
        CallRecordCopyValues (ODRecord 1);
        Stdout ("Changing password for alice." ++ nl)%string;
        CallGetpass "Old password:" (Some bad_bytes);
        CallGetpass "New password:" (Some "n3w"%string);
        CallGetpass "Retype new password:" (Some "n3w"%string)]) /\
  exists r st,
    reaches_commit world_bad_old_password (Some "alice"%string) None None
      r true None (Some "n3w"%string) st /\
    items_present r true None (Some "n3w"%string) = false.
Proof.
  split; [reflexivity|].
  eexists. eexists. split.
  - do 4 eexists. repeat split; vm_compute; reflexivity.
  - reflexivity.
Qed.

(** The success test of the commit reads the error slot: an error that an
    earlier call left there ends the invocation with status 1 although
    the operation stored none. *)
Lemma stale_error_exits :
  commit_store world_stale_error
    (mkResolved "alice" "alice" true "alice" (Some "alice"%string) None
       (ODRecord 1))
    true (Some "old"%string) (Some "n3w"%string) = None /\
  invoke world_stale_error (Some "alice"%string) None None =
    (Exited 1,
     mkState 0 (Some (sample_error 4100 "Attribute not found")) "n3w" []
       [CallSessionCreate None;
        CallNodeCreateWithNodeType (Some (ODSession 1));
        CallNodeCopyRecord (ODNode 1) "alice";
        CallRecordCopyValues (ODRecord 1);
        Stdout ("Changing password for alice." ++ nl)%string;
        CallGetpass "Old password:" (Some "old"%string);
        CallGetpass "New password:" (Some "n3w"%string);
        CallGetpass "Retype new password:" (Some "n3w"%string);
        CallSetNodeCredentialsExtended (ODRecord 1)
          [Some "alice"; Some "n3w"; Some "alice"; Some "old"]%string;
        Stderr "passwd: Attribute not found"; Stderr nl]).
Proof. split; reflexivity. Qed.

(** ** The retry loop *)

Lemma mismatch_iteration w st n c rest :
  input st = Some n :: Some c :: rest ->
  mismatching w (n, c) ->
  od_newpass w st =
    od_newpass w (mkState (master_mode st) (error st) c rest
                          (output st ++ mismatch_round (n, c))).
Proof.
  intros Hin (Hne & Hok & Hneq). cbn [fst snd] in *.
  unfold od_newpass at 1. rewrite Hin. cbn [List.length].
  remember (S (S (List.length rest))) as fuel eqn:Hfuel.
  cbn [newpass_loop].
  unfold getpass, memset_zero, unchanged, mismatch, CFStringCreateWithCString.
  unfold bind at 1. rewrite Hin.
  assert (Hlen : (0 <? String.length n)%nat = true)
    by (destruct n; [congruence|reflexivity]).
  rewrite Hlen, Hok.
  assert (Heq : CFEqual n c = false).
  { unfold CFEqual. apply String.eqb_neq. congruence. }
  exec; try congruence.
  all: rewrite od_newpass_fuel by (cbn [input]; lia).
  all: f_equal; f_equal; unfold mismatch_round; cbn [fst snd];
    rewrite <- !app_assoc; reflexivity.
Qed.

Lemma newpass_loop_extends w fuel st :
  (List.length (input st) < fuel)%nat ->
  exists evs, output (state_of (newpass_loop w fuel st)) = output st ++ evs.
Proof.
  intros Hf. pose proof (newpass_loop_post w fuel st Hf) as Hp.
  destruct (newpass_loop w fuel st) as [np st'|o st'];
    destruct Hp as (_ & _ & evs & _ & Hres); cbn [state_of].
  - destruct Hres as (c & -> & _). eauto.
  - destruct Hres as [(_ & reply & _ & ->)|(_ & -> & _)]; eauto.
Qed.

Lemma od_newpass_first_prompt w st :
  exists reply evs,
    output (state_of (od_newpass w st)) =
      output st ++ CallGetpass new_prompt reply :: evs.
Proof.
  unfold od_newpass.
  remember (List.length (input st)) as fuel eqn:Hfuel.
  cbn [newpass_loop].
  unfold getpass, memset_zero, unchanged, mismatch.
  exec.
  all: subst fuel.
  all: try match goal with
         | |- context [newpass_loop ?w0 ?f ?s] =>
             let H := fresh in
             destruct (newpass_loop_extends w0 f s) as [? H];
             [cbn [input];
              repeat match goal with
                     | E : input _ = _ |- _ => rewrite E in *; clear E
                     end;
              cbn [List.length]; lia
             |rewrite H]
         end.
  all: cbn [state_of output]; rewrite <- ?app_assoc; cbn [app]; eauto.
Qed.

Lemma mismatch_rounds_continue w ps : forall rest st,
  Forall (mismatching w) ps ->
  input st = replies ps ++ rest ->
  exists st',
    od_newpass w st = od_newpass w st' /\
    input st' = rest /\
    output st' = output st ++ mismatch_rounds ps /\
    master_mode st' = master_mode st /\ error st' = error st.
Proof.
  induction ps as [|[n c] ps IH]; intros rest st Hall Hin.
  - exists st. cbn in *. rewrite app_nil_r. auto.
  - inversion Hall as [|p ps' Hp Hps]; subst.
    cbn [replies flat_map fst snd app] in Hin. fold (replies ps) in Hin.
    rewrite (mismatch_iteration w st n c _ Hin Hp).
    destruct (IH rest
                (mkState (master_mode st) (error st) c (replies ps ++ rest)
                         (output st ++ mismatch_round (n, c)))
                Hps eq_refl)
      as (st' & Hnext & Hi & Ho & Hm & He).
    exists st'. cbn [input output master_mode error] in *.
    repeat split; try assumption.
    rewrite Ho. cbn [mismatch_rounds flat_map].
    now rewrite <- app_assoc.
Qed.

(** X15: when the new password can be converted, rounds in which the
    confirmation differs from it print the mismatch line and lead back to
    the "New password:" prompt: the loop goes on with the remaining
    input, having asked only for the new password and its confirmation;
    this holds for any number of such rounds.  Every pass through the
    loop starts with the "New password:" prompt.  When all replies can be
    converted, the loop is left only by a confirmation equal to the new
    password or by an empty or missing reply to "New password:". *)
Theorem X15_retry_rounds w :
  (forall ps rest st,
     Forall (mismatching w) ps ->
     input st = replies ps ++ rest ->
     exists st',
       od_newpass w st = od_newpass w st' /\
       input st' = rest /\
       output st' = output st ++ mismatch_rounds ps /\
       master_mode st' = master_mode st /\ error st' = error st) /\
  (forall st,
     exists reply evs,
       output (state_of (od_newpass w st)) =
         output st ++ CallGetpass new_prompt reply :: evs) /\
  (forall st,
     convertible w st ->
     match od_newpass w st with
     | Next newpass st' =>
         exists evs c,
           newpass = Some c /\
           output st' =
             output st ++ evs ++ [CallGetpass new_prompt (Some c);
                                  CallGetpass retype_prompt (Some c)]
     | Halt o st' =>
         o = Exited 0 /\
         exists evs reply,
           declined reply = true /\
           output st' =
             output st ++ evs ++ [CallGetpass new_prompt reply;
                                  Stdout unchanged_line]
     end).
Proof.
  split; [|split].
  - intros ps rest st. apply mismatch_rounds_continue.
  - apply od_newpass_first_prompt.
  - intros st Hconv. pose proof (od_newpass_post w st) as Hp.
    destruct (od_newpass w st) as [np st'|o st'];
      destruct Hp as (_ & _ & evs & _ & Hres).
    + destruct Hres as (c & Hout & -> & _). eauto.
    + destruct Hres as [(-> & reply & Hd & Hout)|(_ & _ & s & Hin & Hs)].
      * eauto.
      * rewrite (Hconv s Hin) in Hs. discriminate.
Qed.

Lemma X15_retry_rounds_witness :
  Forall (mismatching world_retry)
    [("new1", "new2"); ("abc", "abd")]%string /\
  exists st',
    od_newpass world_retry (initial world_retry) = od_newpass world_retry st' /\
    input st' = [Some "s3cret"; Some "s3cret"]%string /\
    output st' =
      mismatch_rounds [("new1", "new2"); ("abc", "abd")]%string /\
    convertible world_retry (initial world_retry) /\
    exists st'' evs,
      od_newpass world_retry (initial world_retry)
        = Next (Some "s3cret"%string) st'' /\
      output st'' =
        evs ++ [CallGetpass new_prompt (Some "s3cret"%string);
                CallGetpass retype_prompt (Some "s3cret"%string)].
Proof.
  assert (H : Forall (mismatching world_retry)
                [("new1", "new2"); ("abc", "abd")]%string).
  { repeat constructor; cbn; discriminate. }
  assert (Hc : convertible world_retry (initial world_retry)).
  { intros s _. reflexivity. }
  split; [exact H|].
  destruct (proj1 (X15_retry_rounds world_retry)
              [("new1", "new2"); ("abc", "abd")]%string
              [Some "s3cret"; Some "s3cret"]%string
              (initial world_retry) H eq_refl)
    as (st' & Hnext & Hi & Ho & _).
  exists st'. repeat (split; [assumption|]).
  pose proof (proj2 (proj2 (X15_retry_rounds world_retry))
                (initial world_retry) Hc) as H3.
  destruct (od_newpass world_retry (initial world_retry))
    as [np st''|o st''] eqn:E.
  - destruct H3 as (evs & c & -> & Hout).
    assert (c = "s3cret"%string) as ->.
    { vm_compute in E. congruence. }
    exists st'', evs. split; [reflexivity|]. exact Hout.
  - vm_compute in E. discriminate E.
Defined.

(** C4 fails on the code when the new password cannot be converted and
    the confirmation, which does not match it, can: [newpass] is NULL and
    is compared all the same, so there is no mismatch line and no new
    prompt; the replies that follow are never read. *)
Theorem C4_unconvertible_new_password :
  invoke world_bad_new_password (Some "alice"%string) None None =
    (Faulted,
     mkState 1 None "n3w" [Some "n3w"; Some "n3w"]%string
       [CallSessionCreate None;
        CallNodeCreateWithNodeType (Some (ODSession 1));
        CallNodeCopyRecord (ODNode 1) "alice";
        CallRecordCopyValues (ODRecord 1);
        Stdout ("Changing password for alice." ++ nl)%string;
        CallGetpass "New password:" (Some bad_bytes);
        CallGetpass "Retype new password:" (Some "n3w"%string)]) /\
  bad_bytes <> "n3w"%string /\
  CFStringCreateWithCString world_bad_new_password bad_bytes = None /\
  CFStringCreateWithCString world_bad_new_password "n3w" = Some "n3w"%string.
Proof. repeat split; try reflexivity. discriminate. Qed.

(** ** Session bootstrap *)

Lemma is_singleuser_flag w st v :
  singleuser_flag w = Some v ->
  is_singleuser w st = Next v (logged [CallSysctlbyname "kern.singleuser"] st).
Proof.
  unfold singleuser_flag.
  destruct (is_singleuser_run w (initial w)) as (v0 & E0 & Hv0).
  destruct (is_singleuser_run w st) as (v1 & E1 & Hv1).
  rewrite E0, E1. cbn [value_of]. intros H. inv_steps. congruence.
Qed.

Lemma loader_result_run w st v :
  loader_result w = Some v ->
  exists evs,
    load_DirectoryServicesLocal w st = Next v (logged evs st) /\
    Forall background evs /\
    Forall (fun e => is_node_or_record_call e = false) evs.
Proof.
  unfold loader_result, load_DirectoryServicesLocal.
  exec; cbn [value_of]; intros H; inv_steps; try discriminate H.
  all: eexists; split;
    [unfold logged; cbn [master_mode error passbuf input output];
     rewrite <- ?app_assoc; reflexivity|].
  all: split; [all_background|].
  all: repeat first
         [ apply Forall_nil
         | apply Forall_app; split
         | apply Forall_cons; [reflexivity|]
         | apply Forall_forall; intros ? ?Hin;
           apply repeat_spec in Hin; subst; reflexivity ].
Qed.

Lemma od_connect_fatal w loc st e :
  daemon_not_running w e ->
  singleuser_flag w = Some 0 ->
  od_connect w loc st =
    Halt (Returned (-1))
         (mkState (master_mode st) (Some e) (passbuf st) (input st)
            (output st ++
               [CallSessionCreate None; CallSysctlbyname "kern.singleuser"]
               ++ shown w (Some e))).
Proof.
  intros [Hs Hc] Hf.
  unfold od_connect, call, and_then. rewrite Hs.
  unfold bind at 1. unfold bind at 1. unfold emit at 1.
  unfold bind at 1. unfold store_error at 1. cbn [snd fst]. unfold ret at 1.
  unfold bind at 1. unfold get_error at 1. cbn [error].
  unfold session_daemon_not_running. rewrite Hc, Z.eqb_refl.
  unfold bind at 1. unfold bind at 1.
  rewrite (is_singleuser_flag w _ 0 Hf).
  cbn [is_true Z.eqb negb]. unfold ret at 1.
  unfold bind at 1. unfold get_error at 1.
  unfold bind at 1. rewrite show_error_logged.
  unfold Return, halt, logged.
  cbn [master_mode error passbuf input output].
  rewrite <- !app_assoc. reflexivity.
Qed.

(** Without single-user mode a daemon that is not running ends the
    invocation: the error is shown and [od_passwd] returns -1. *)
Lemma daemon_down_fatal w name l a e :
  CFStringCreateWithCString_ok w name = true ->
  daemon_not_running w e ->
  singleuser_flag w = Some 0 ->
  invoke w (Some name) l a =
    (Returned (-1),
     mkState (Z.b2z (getuid w =? 0)) (Some e) "" (terminal w)
       ([CallSessionCreate None; CallSysctlbyname "kern.singleuser"]
          ++ shown w (Some e))).
Proof.
  intros Hn Hd Hf.
  unfold invoke, run, od_passwd, od_resolve, CFStringCreateWithCString.
  rewrite Hn.
  unfold bind at 1. unfold bind at 1. unfold set_master_mode at 1.
  unfold bind at 1.
  rewrite (od_connect_fatal w _ _ e Hd Hf). reflexivity.
Qed.

Lemma shown_no_fork w err : ~ In CallFork (shown w err).
Proof.
  intros Hin. pose proof (shown_background w err) as Hb.
  destruct err as [e|]; [|exact Hin]. cbn [shown] in Hin.
  destruct (CFErrorCopyDescription e), (CFErrorCopyFailureReason e),
    (CFErrorCopyRecoverySuggestion e); cbn in Hin;
    repeat (destruct Hin as [Hin|Hin]; [discriminate Hin|]); exact Hin.
Qed.

(** C6, as the code has it: when session creation fails with the
    daemon-not-running error and the host is not in single-user mode,
    the error is displayed, the loader is never forked, and [od_passwd]
    returns -1 to its caller; it does not exit with status 1. *)
Theorem C6_no_singleuser_no_load w name l a e :
  CFStringCreateWithCString_ok w name = true ->
  daemon_not_running w e ->
  singleuser_flag w = Some 0 ->
  fst (invoke w (Some name) l a) = Returned (-1) /\
  ~ In CallFork (output (snd (invoke w (Some name) l a))) /\
  exists pre,
    output (snd (invoke w (Some name) l a)) = pre ++ shown w (Some e).
Proof.
  intros Hn Hd Hf. rewrite (daemon_down_fatal w name l a e Hn Hd Hf).
  cbn [fst snd output]. split; [reflexivity|]. split.
  - intros Hin. apply in_app_or in Hin. destruct Hin as [Hin|Hin].
    + cbn in Hin. destruct Hin as [Hin|[Hin|Hin]];
        [discriminate Hin|discriminate Hin|exact Hin].
    + exact (shown_no_fork _ _ Hin).
  - eexists. reflexivity.
Qed.

Lemma C6_no_singleuser_no_load_witness :
  daemon_not_running world_daemon_down daemon_down /\
  singleuser_flag world_daemon_down = Some 0 /\
  fst (invoke world_daemon_down (Some "alice"%string) None None)
    = Returned (-1) /\
  ~ In CallFork
      (output (snd (invoke world_daemon_down (Some "alice"%string) None None))).
Proof.
  assert (Hd : daemon_not_running world_daemon_down daemon_down)
    by (split; reflexivity).
  split; [exact Hd|]. split; [reflexivity|].
  destruct (C6_no_singleuser_no_load world_daemon_down "alice"%string
              None None daemon_down eq_refl Hd eq_refl) as (H1 & H2 & _).
  split; [exact H1 | exact H2].
Defined.

(** C6 as stated fails: the invocation does not end with exit status 1. *)
Lemma C6_counterexample :
  daemon_not_running world_daemon_down daemon_down /\
  singleuser_flag world_daemon_down = Some 0 /\
  fst (invoke world_daemon_down (Some "alice"%string) None None)
    = Returned (-1) /\
  fst (invoke world_daemon_down (Some "alice"%string) None None)
    <> Exited 1.
Proof.
  split; [split; reflexivity|]. split; [reflexivity|].
  split; [reflexivity|discriminate].
Qed.

(** C10: when the kernel query fails, [is_singleuser] answers 0; the
    loader is then never forked and a daemon that is not running ends the
    invocation with the error displayed. *)
Theorem C10_sysctl_failure w :
  fst (sysctlbyname w "kern.singleuser") <> 0 ->
  singleuser_flag w = Some 0 /\
  forall name l a e,
    CFStringCreateWithCString_ok w name = true ->
    daemon_not_running w e ->
    fst (invoke w (Some name) l a) = Returned (-1) /\
    ~ In CallFork (output (snd (invoke w (Some name) l a))) /\
    output (snd (invoke w (Some name) l a)) =
      [CallSessionCreate None; CallSysctlbyname "kern.singleuser"]
        ++ shown w (Some e).
Proof.
  intros Hrc.
  assert (Hf : singleuser_flag w = Some 0).
  { unfold singleuser_flag.
    destruct (is_singleuser_run w (initial w)) as (v & E & Hv).
    rewrite E. cbn [value_of]. rewrite Hv.
    destruct (sysctlbyname w "kern.singleuser") as [rc su].
    cbn [fst] in Hrc. apply Z.eqb_neq in Hrc. now rewrite Hrc. }
  split; [exact Hf|].
  intros name l a e Hn Hd.
  rewrite (daemon_down_fatal w name l a e Hn Hd Hf).
  cbn [fst snd output]. split; [reflexivity|]. split; [|reflexivity].
  intros Hin. apply in_app_or in Hin. destruct Hin as [Hin|Hin].
  - cbn in Hin. destruct Hin as [Hin|[Hin|Hin]];
      [discriminate Hin|discriminate Hin|exact Hin].
  - exact (shown_no_fork _ _ Hin).
Qed.

Lemma C10_sysctl_failure_witness :
  fst (sysctlbyname world_sysctl_fails "kern.singleuser") <> 0 /\
  singleuser_flag world_sysctl_fails = Some 0 /\
  fst (invoke world_sysctl_fails (Some "alice"%string) None None)
    = Returned (-1).
Proof.
  assert (H : fst (sysctlbyname world_sysctl_fails "kern.singleuser") <> 0)
    by discriminate.
  split; [exact H|].
  destruct (C10_sysctl_failure world_sysctl_fails H) as [Hf Hrun].
  split; [exact Hf|].
  exact (proj1 (Hrun "alice"%string None None daemon_down eq_refl
                  (conj eq_refl eq_refl))).
Defined.

Lemma od_change_extends w r st :
  exists evs, output (state_of (od_change w r st)) = output st ++ evs.
Proof.
  unfold od_change. unfold bind at 1.
  pose proof (od_policy_post w r st) as Hp.
  destruct (od_policy w r st) as [[loc b] st2|o st2].
  2: { destruct Hp as ((_ & _ & evs & He & _) & _). now exists evs. }
  destruct Hp as ((_ & _ & evs2 & He2 & _) & _). cbn [snd].
  destruct (od_oldpass_post w r b st2)
    as (st3 & evs3 & Eo & _ & _ & Hx3 & _).
  unfold bind at 1. rewrite Eo. unfold bind at 1.
  pose proof (od_newpass_post w st3) as Hl.
  destruct (od_newpass w st3) as [np st4|o st4];
    destruct Hl as (_ & _ & evs4 & _ & Hres).
  - destruct Hres as (c & Hout & _). rewrite od_commit_run.
    destruct (items_present r b _ np);
      cbn [state_of output]; rewrite Hout, Hx3, He2, <- !app_assoc;
      eexists; reflexivity.
  - cbn [state_of].
    destruct Hres as [(_ & reply & _ & Hout)|(_ & Hout & _)];
      rewrite Hout, Hx3, He2, <- !app_assoc; eexists; reflexivity.
Qed.

Lemma invoke_extends_resolve w u l a :
  exists evs,
    output (snd (invoke w u l a)) =
      output (state_of (od_resolve w u l a (initial w))) ++ evs.
Proof.
  unfold invoke, run, od_passwd. unfold bind at 1.
  destruct (od_resolve w u l a (initial w)) as [r st1|o st1].
  - destruct (od_change_extends w r st1) as [evs He].
    exists evs. cbn [state_of].
    destruct (od_change w r st1); exact He.
  - exists []. cbn [snd state_of]. now rewrite app_nil_r.
Qed.

Lemma od_connect_local w loc st e v v' :
  daemon_not_running w e ->
  singleuser_flag w = Some v -> v <> 0 ->
  loader_result w = Some v' -> v' <> 0 ->
  CFDictionaryCreate_ok w = true ->
  exists evs,
    Forall (fun e => is_node_or_record_call e = false) evs /\
    od_connect w loc st =
      Next (fst (ODSessionCreate w (Some local_path)), Some (or_default loc))
           (mkState (master_mode st)
              (match snd (ODSessionCreate w (Some local_path)) with
               | Some e' => e'
               | None => Some e
               end)
              (passbuf st) (input st)
              (output st ++ evs ++ [CallSessionCreate (Some local_path)])).
Proof.
  intros [Hs Hc] Hf Hv Hl Hv' Hdict.
  unfold od_connect, call, and_then. rewrite Hs, Hdict.
  unfold bind at 1. unfold bind at 1. unfold emit at 1.
  unfold bind at 1. unfold store_error at 1. cbn [snd fst]. unfold ret at 1.
  unfold bind at 1. unfold get_error at 1. cbn [error].
  unfold session_daemon_not_running. rewrite Hc, Z.eqb_refl.
  unfold bind at 1. unfold bind at 1.
  rewrite (is_singleuser_flag w _ v Hf).
  assert (Ht : is_true v = true)
    by (unfold is_true; apply negb_true_iff, Z.eqb_neq, Hv).
  assert (Ht' : is_true v' = true)
    by (unfold is_true; apply negb_true_iff, Z.eqb_neq, Hv').
  rewrite Ht. unfold bind at 1.
  match goal with
  | |- context [load_DirectoryServicesLocal w ?s] =>
      destruct (loader_result_run w s v' Hl) as (evs & El & _ & Hnode)
  end.
  rewrite El, Ht'. unfold ret at 1.
  exists ([CallSessionCreate None; CallSysctlbyname "kern.singleuser"] ++ evs).
  split.
  - apply Forall_cons; [reflexivity|]. apply Forall_cons; [reflexivity|].
    exact Hnode.
  - unfold local_path, CFStringRef in *.
    destruct (ODSessionCreate w (Some "/var/db/dslocal"%string))
      as [session ew].
    destruct ew as [e'|], loc;
      unfold bind, emit, store_error, ret, or_default, logged;
      cbn [fst snd master_mode error passbuf input output];
      rewrite <- ?app_assoc; reflexivity.
Qed.

Lemma shown_no_node_call w err :
  filter is_node_or_record_call (shown w err) = [].
Proof.
  destruct err as [e|]; [|reflexivity]. cbn [shown].
  destruct (CFErrorCopyDescription e), (CFErrorCopyFailureReason e),
    (CFErrorCopyRecoverySuggestion e); reflexivity.
Qed.

Lemma od_resolve_local w name l a e v v' :
  CFStringCreateWithCString_ok w name = true ->
  daemon_not_running w e ->
  singleuser_flag w = Some v -> v <> 0 ->
  loader_result w = Some v' -> v' <> 0 ->
  CFDictionaryCreate_ok w = true ->
  fst (ODSessionCreate w (Some local_path)) = None ->
  exists evs err,
    Forall (fun e => is_node_or_record_call e = false) evs /\
    od_resolve w (Some name) l a (initial w) =
      (rec <- od_copy_record w name name None
                (Some (or_default (supplied w l))) ;;
       ret (mkResolved name (match a with Some x => x | None => name end)
              (strcmp_eq (match a with Some x => x | None => name end) name)
              name
              (CFStringCreateWithCString w
                 (match a with Some x => x | None => name end))
              (Some (or_default (supplied w l))) rec))
        (mkState (Z.b2z (getuid w =? 0)) err "" (terminal w)
           (evs ++ [CallSessionCreate (Some local_path)])).
Proof.
  intros Hn Hd Hf Hv Hl Hv' Hdict Hretry.
  assert (Hc : CFStringCreateWithCString w name = Some name)
    by (unfold CFStringCreateWithCString; now rewrite Hn).
  unfold od_resolve. rewrite Hc.
  unfold bind at 1. unfold set_master_mode at 1. unfold bind at 1.
  fold (supplied w l).
  match goal with
  | |- context [od_connect w ?loc ?s] =>
      destruct (od_connect_local w loc s e v v' Hd Hf Hv Hl Hv' Hdict)
        as (evs & Hnode & Ec)
  end.
  rewrite Ec, Hretry. cbn [master_mode passbuf input output initial app].
  exists evs. eexists. split; [exact Hnode|]. reflexivity.
Qed.

(** C5, as the code has it: when the daemon is not running, the host is
    in single-user mode, the loader succeeded and the retried session
    creation against the database on disk still yields no session, the
    invocation does not stop there: the node is created by name, at the
    supplied location or "/Local/Default", with a null session.  Only if
    that yields no node is the error (or the unknown user) reported and
    -1 returned, and then no record is looked up. *)
Theorem C5_failed_retry_goes_on w name l a e v v' :
  CFStringCreateWithCString_ok w name = true ->
  daemon_not_running w e ->
  singleuser_flag w = Some v -> v <> 0 ->
  loader_result w = Some v' -> v' <> 0 ->
  CFDictionaryCreate_ok w = true ->
  fst (ODSessionCreate w (Some local_path)) = None ->
  (exists pre post,
     output (snd (invoke w (Some name) l a)) =
       pre ++ CallSessionCreate (Some local_path)
           :: CallNodeCreateWithName None (or_default (supplied w l))
           :: post) /\
  (fst (ODNodeCreateWithName w None (or_default (supplied w l))) = None ->
   fst (invoke w (Some name) l a) = Returned (-1) /\
   filter is_node_or_record_call (output (snd (invoke w (Some name) l a))) =
     [CallNodeCreateWithName None (or_default (supplied w l))] /\
   exists pre,
     output (snd (invoke w (Some name) l a)) =
       pre ++ match error (snd (invoke w (Some name) l a)) with
              | Some err => shown w (Some err)
              | None => [unknown_user w name]
              end).
Proof.
  intros Hn Hd Hf Hv Hl Hv' Hdict Hretry.
  destruct (od_resolve_local w name l a e v v' Hn Hd Hf Hv Hl Hv' Hdict Hretry)
    as (evs & err & Hnode & Er).
  set (loc := or_default (supplied w l)) in *.
  split.
  - destruct (invoke_extends_resolve w (Some name) l a) as [tail Ht].
    rewrite Ht, Er. clear Ht.
    unfold od_copy_record, call.
    destruct (ODNodeCreateWithName w None loc) as [node ew].
    exec; cbn [state_of output]; rewrite <- ?app_assoc; cbn [app];
      eexists; eexists; reflexivity.
  - intros Hnone.
    assert (Hfilter : filter is_node_or_record_call evs = []).
    { clear Er. induction Hnode as [|x xs Hx _ IH]; [reflexivity|].
      cbn [filter]. now rewrite Hx. }
    assert (Hrun : exists st',
               invoke w (Some name) l a = (Returned (-1), st') /\
               output st' =
                 (evs ++ [CallSessionCreate (Some local_path);
                          CallNodeCreateWithName None loc]) ++
                 match error st' with
                 | Some err' => shown w (Some err')
                 | None => [unknown_user w name]
                 end).
    { unfold invoke, run, od_passwd. unfold bind at 1. rewrite Er.
      unfold od_copy_record, call.
      destruct (ODNodeCreateWithName w None loc) as [node ew].
      cbn [fst] in Hnone. subst node.
      exec; eexists; (split; [reflexivity|]);
        unfold logged; cbn [output error master_mode passbuf input];
        unfold unknown_user; rewrite <- ?app_assoc; reflexivity. }
    destruct Hrun as (st' & -> & Hout). cbn [fst snd].
    split; [reflexivity|]. split.
    + rewrite Hout, !filter_app, Hfilter. cbn [filter app is_node_or_record_call].
      destruct (error st') as [err'|]; [|reflexivity].
      now rewrite shown_no_node_call.
    + eexists. exact Hout.
Qed.

Lemma C5_failed_retry_goes_on_witness :
  daemon_not_running world_single_user daemon_down /\
  singleuser_flag world_single_user = Some 1 /\
  loader_result world_single_user = Some 1 /\
  fst (ODSessionCreate world_single_user (Some local_path)) = None /\
  fst (invoke world_single_user (Some "alice"%string) None None)
    = Returned (-1) /\
  filter is_node_or_record_call
    (output (snd (invoke world_single_user (Some "alice"%string) None None)))
  = [CallNodeCreateWithName None "/Local/Default"%string].
Proof.
  assert (Hd : daemon_not_running world_single_user daemon_down)
    by (split; reflexivity).
  split; [exact Hd|]. do 3 (split; [reflexivity|]).
  assert (H1 : (1 <> 0)%Z) by discriminate.
  destruct (proj2 (C5_failed_retry_goes_on world_single_user "alice"%string
                     None None daemon_down 1 1
                     eq_refl Hd eq_refl H1 eq_refl H1 eq_refl eq_refl)
              eq_refl) as (Hr & Hf & _).
  split; [exact Hr | exact Hf].
Defined.

(** C5 as stated fails: after the failed retry the node creation is
    attempted all the same. *)
Lemma C5_counterexample :
  daemon_not_running world_single_user daemon_down /\
  singleuser_flag world_single_user = Some 1 /\
  loader_result world_single_user = Some 1 /\
  fst (ODSessionCreate world_single_user (Some local_path)) = None /\
  output (snd (invoke world_single_user (Some "alice"%string) None None)) =
    [CallSessionCreate None;
     CallSysctlbyname "kern.singleuser";
     CallFork;
     CallWaitpid;
     CallSessionCreate (Some "/var/db/dslocal"%string);
     CallNodeCreateWithName None "/Local/Default"%string;
     Stderr "passwd: Node not found"%string;
     Stderr nl] /\
  In (CallNodeCreateWithName None "/Local/Default"%string)
     (output (snd (invoke world_single_user (Some "alice"%string) None None))).
Proof.
  split; [split; reflexivity|]. do 4 (split; [reflexivity|]).
  vm_compute. do 5 right. left. reflexivity.
Qed.

(** ** Secrets in the terminal buffer *)

(** When the commit is made, and after it, the buffer [getpass] answered
    in holds the new password as it was typed the second time. *)
Lemma commit_buffer_holds_password w u l a r b oldpass newpass st :
  reaches_commit w u l a r b oldpass newpass st ->
  exists c,
    newpass = Some c /\ c <> ""%string /\
    passbuf st = c /\ passbuf (snd (invoke w u l a)) = c.
Proof.
  intros H.
  destruct (reaches_commit_run _ _ _ _ _ _ _ _ _ H) as [Hrun _].
  destruct H as (st1 & loc & st2 & st3 & _ & _ & _ & En).
  pose proof (od_newpass_post w st3) as Hl. rewrite En in Hl.
  destruct Hl as (_ & _ & evs & _ & c & _ & -> & Hne & Hbuf).
  exists c. repeat split; try assumption.
  rewrite Hrun. unfold run. rewrite od_commit_run.
  destruct (items_present r b oldpass (Some c)); exact Hbuf.
Qed.

(** C8 fails on the code for the confirmation: the buffer holding the
    reply to "Retype new password:" is never cleared, and still holds the
    password when [od_passwd] returns; the reply to "New password:" is
    cleared right after its conversion. *)
Theorem C8_confirmation_left_in_buffer :
  invoke world_root_local (Some "alice"%string) None None =
    (Returned 0,
     mkState 1 None "s3cret" []
       [CallSessionCreate None;
        CallNodeCreateWithNodeType (Some (ODSession 1));
        CallNodeCopyRecord (ODNode 1) "alice";
        CallRecordCopyValues (ODRecord 1);
        Stdout ("Changing password for alice." ++ nl)%string;
        CallGetpass "New password:" (Some "s3cret"%string);
        CallGetpass "Retype new password:" (Some "s3cret"%string);
        CallChangePassword (ODRecord 1) None (Some "s3cret"%string)]) /\
  passbuf (snd (invoke world_new_only (Some "alice"%string) None None))
    = zeroes 3.
Proof. split; reflexivity. Qed.

(** ** A missing location *)

(** The policy step faults exactly when the caller is root and there is
    no location to compare. *)
Lemma od_policy_faults w r st :
  (exists o st', od_policy w r st = Halt o st') <->
  (is_true (master_mode st) = true /\ location_used w r = None).
Proof.
  pose proof (od_policy_post w r st) as Hp. split.
  - intros (o & st' & E). rewrite E in Hp. tauto.
  - intros [Hroot Hnone]. revert Hp.
    unfold od_policy, location_used in *.
    destruct (ODRecordCopyValues w (rec r)) as [values ew].
    cbn [fst] in Hnone.
    unfold call, bind, emit, store_error, ret, get_master_mode, halt.
    cbn [fst snd].
    destruct ew as [e|]; cbn [master_mode]; rewrite Hroot; cbn [negb];
      destruct values as [[|x xs]|]; try discriminate Hnone;
      rewrite Hnone; eauto.
Qed.

(** C9 fails on the code: for root, with no location supplied, no
    single-user default and a record without a node location value, the
    policy step is reached and the prefix comparison is made on a missing
    location. *)
Theorem C9_missing_location_compared :
  invoke world_root_no_location (Some "alice"%string) None None =
    (Faulted,
     mkState 1 None "" [Some "s3cret"; Some "s3cret"]%string
       [CallSessionCreate None;
        CallNodeCreateWithNodeType (Some (ODSession 1));
        CallNodeCopyRecord (ODNode 1) "alice";
        CallRecordCopyValues (ODRecord 1);
        Stdout ("Changing password for alice." ++ nl)%string]) /\
  exists r st1,
    od_resolve world_root_no_location (Some "alice"%string) None None
      (initial world_root_no_location) = Next r st1 /\
    location_used world_root_no_location r = None /\
    od_policy world_root_no_location r st1 =
      Halt Faulted (snd (invoke world_root_no_location
                           (Some "alice"%string) None None)).
Proof.
  split; [reflexivity|].
  eexists. eexists. split; [vm_compute; reflexivity|].
  split; reflexivity.
Qed.


(** * Further properties *)

(** ** [is_singleuser] *)

Lemma int_of_uint32_range v : - 2 ^ 31 <= int_of_uint32 v < 2 ^ 31.
Proof.
  unfold int_of_uint32.
  pose proof (Z.mod_pos_bound v (2 ^ 32) ltac:(lia)) as Hb.
  destruct (Z.ltb_spec (v mod 2 ^ 32) (2 ^ 31)); lia.
Qed.

Lemma int_of_uint32_zero v : int_of_uint32 v = 0 <-> v mod 2 ^ 32 = 0.
Proof.
  unfold int_of_uint32.
  pose proof (Z.mod_pos_bound v (2 ^ 32) ltac:(lia)) as Hb.
  destruct (Z.ltb_spec (v mod 2 ^ 32) (2 ^ 31)); lia.
Qed.

(** X1: [is_singleuser] makes one query of "kern.singleuser" and touches
    nothing else; its answer is an [int], and it is non-zero exactly when
    the query succeeded and stored a non-zero 32-bit value: the cast to
    [int] never turns a set flag into 0. *)
Theorem X1_is_singleuser_answer w st :
  exists v,
    is_singleuser w st =
      Next v (logged [CallSysctlbyname "kern.singleuser"] st) /\
    - 2 ^ 31 <= v < 2 ^ 31 /\
    (v <> 0 <->
     fst (sysctlbyname w "kern.singleuser") = 0 /\
     snd (sysctlbyname w "kern.singleuser") mod 2 ^ 32 <> 0).
Proof.
  destruct (is_singleuser_run w st) as (v & E & Hv).
  exists v. split; [exact E|]. subst v.
  destruct (sysctlbyname w "kern.singleuser") as [rc su]. cbn [fst snd].
  destruct (Z.eqb_spec rc 0) as [->|Hrc]; cbn [negb].
  - split; [apply int_of_uint32_range|].
    rewrite int_of_uint32_zero. tauto.
  - split; [lia|]. split; [congruence|tauto].
Qed.

(** ** [load_DirectoryServicesLocal] *)

Lemma loader_events_process w : Forall (fun e => is_process_event e = true)
                                       (loader_events w).
Proof.
  unfold loader_events. apply Forall_cons; [reflexivity|].
  destruct (fork w =? -1); [repeat constructor|].
  apply Forall_app. split.
  - apply Forall_forall. intros e He. apply repeat_spec in He. now subst.
  - destruct (fst (waitpid w) =? -1); repeat constructor.
Qed.

Lemma load_parent_run w st :
  fork w <> 0 ->
  load_DirectoryServicesLocal w st =
    Next (Z.b2z (loader_ok w)) (logged (loader_events w) st).
Proof.
  intros Hf. unfold load_DirectoryServicesLocal, loader_ok, loader_events.
  unfold bind at 1. unfold emit at 1.
  destruct (Z.eqb_spec (fork w) (-1)) as [E1|E1]; cbn [negb andb].
  - unfold bind, emit, ret, logged. cbn [master_mode error passbuf input output].
    rewrite <- app_assoc. reflexivity.
  - destruct (Z.eqb_spec (fork w) 0) as [E0|E0]; [contradiction|].
    unfold bind at 1. rewrite waitpid_loop_logged.
    destruct (waitpid w) as [res status]. cbn [fst snd].
    destruct (res =? -1); cbn [negb andb];
      unfold bind, emit, ret, logged;
      cbn [master_mode error passbuf input output];
      rewrite <- ?app_assoc; cbn [app]; rewrite ?app_nil_r; reflexivity.
Qed.

(** X2: in the parent, and when [fork] fails, the loader returns 1
    exactly when the child was created, [waitpid] did not fail, and the
    child exited normally with status 0, and 0 otherwise; [waitpid] is
    called once more than it was interrupted, never after a failed
    [fork], and each failure is reported with [perror].  The error slot,
    the terminal and the buffer are left alone. *)
Theorem X2_loader_parent w st :
  fork w <> 0 ->
  load_DirectoryServicesLocal w st =
    Next (Z.b2z (loader_ok w)) (logged (loader_events w) st).
Proof. exact (load_parent_run w st). Qed.

Lemma X2_loader_parent_witness :
  fork world_single_user <> 0 /\
  load_DirectoryServicesLocal world_single_user (initial world_single_user) =
    Next 1 (logged [CallFork; CallWaitpid] (initial world_single_user)).
Proof.
  assert (H : fork world_single_user <> 0) by discriminate.
  split; [exact H|].
  exact (X2_loader_parent world_single_user (initial world_single_user) H).
Defined.

Lemma load_child_run w st :
  fork w = 0 ->
  load_DirectoryServicesLocal w st =
    Halt (if execl_returns w then Exited 1 else Replaced)
         (logged (child_events w) st).
Proof.
  intros Hf. unfold load_DirectoryServicesLocal, child_events. rewrite Hf.
  cbn [Z.eqb]. unfold launchctl, plist.
  destruct (execl_returns w);
    unfold bind, emit, ret, exit, halt, logged;
    cbn [master_mode error passbuf input output];
    rewrite <- ?app_assoc; reflexivity.
Qed.

(** X3: in the forked child the loader never returns to [od_passwd]: it
    calls [execl] on /bin/launchctl with the arguments load and the
    property list of the local daemon; if [execl] returns, it reports
    with [perror] and exits with status 1.  It never waits. *)
Theorem X3_loader_child w st :
  fork w = 0 ->
  load_DirectoryServicesLocal w st =
    Halt (if execl_returns w then Exited 1 else Replaced)
         (logged (child_events w) st).
Proof. exact (load_child_run w st). Qed.

Lemma X3_loader_child_witness :
  fork world_child = 0 /\
  load_DirectoryServicesLocal world_child (initial world_child) =
    Halt (Exited 1)
         (logged [CallFork;
                  CallExecl launchctl [launchctl; "load"%string; plist];
                  Perror "launchctl"] (initial world_child)).
Proof.
  split; [reflexivity|].
  exact (X3_loader_child world_child (initial world_child) eq_refl).
Defined.

(** ** The single-user bootstrap in [od_passwd] *)

Lemma od_connect_down w loc st e v :
  daemon_not_running w e ->
  singleuser_flag w = Some v ->
  od_connect w loc st =
    (ok <- (if is_true v
            then (y <- load_DirectoryServicesLocal w ;; ret (is_true y))
            else ret false) ;;
     if ok : bool then
       session <-
         (if CFDictionaryCreate_ok w then
            call (CallSessionCreate (Some "/var/db/dslocal"%string))
                 (ODSessionCreate w (Some "/var/db/dslocal"%string))
          else ret None) ;;
       ret (session,
            match loc with
            | None => Some "/Local/Default"%string
            | Some l => Some l
            end)
     else
       err <- get_error ;;
       show_error w err ;;
       Return (-1))
      (mkState (master_mode st) (Some e) (passbuf st) (input st)
         (output st ++ [CallSessionCreate None;
                        CallSysctlbyname "kern.singleuser"])).
Proof.
  intros [Hs Hc] Hf.
  unfold od_connect, call, and_then. rewrite Hs.
  unfold bind at 1. unfold bind at 1. unfold emit at 1.
  unfold bind at 1. unfold store_error at 1. cbn [snd fst]. unfold ret at 1.
  unfold bind at 1. unfold get_error at 1. cbn [error].
  unfold session_daemon_not_running. rewrite Hc, Z.eqb_refl.
  unfold bind at 1. unfold bind at 1.
  rewrite (is_singleuser_flag w _ v Hf).
  unfold logged. cbn [master_mode error passbuf input output].
  rewrite <- app_assoc. reflexivity.
Qed.

(** The state in which [od_passwd] connects to the directory. *)
Lemma invoke_connect_halt w name l a o st' :
  CFStringCreateWithCString_ok w name = true ->
  od_connect w (supplied w l)
    (mkState (Z.b2z (getuid w =? 0)) None "" (terminal w) []) = Halt o st' ->
  invoke w (Some name) l a = (o, st').
Proof.
  intros Hn Hc.
  assert (Hu : CFStringCreateWithCString w name = Some name)
    by (unfold CFStringCreateWithCString; now rewrite Hn).
  unfold invoke, run, od_passwd, od_resolve. rewrite Hu.
  unfold bind at 1. unfold bind at 1. unfold set_master_mode at 1.
  unfold bind at 1. fold (supplied w l). unfold initial.
  cbn [error passbuf input output]. rewrite Hc. reflexivity.
Qed.

Lemma filter_directory_process evs :
  Forall (fun e => is_process_event e = true) evs ->
  filter is_directory_call evs = [].
Proof.
  induction 1 as [|e evs He _ IH]; [reflexivity|].
  cbn [filter]. destruct e; try discriminate He; exact IH.
Qed.

Lemma filter_directory_shown w err :
  filter is_directory_call (shown w err) = [].
Proof.
  destruct err as [e|]; [|reflexivity]. cbn [shown].
  destruct (CFErrorCopyDescription e), (CFErrorCopyFailureReason e),
    (CFErrorCopyRecoverySuggestion e); reflexivity.
Qed.

(** X4: when the daemon is not running and the host is in single-user
    mode, the forked child does nothing but start the loader: it makes no
    further directory call and never prompts; it is replaced by
    /bin/launchctl, or exits with status 1 when [execl] fails. *)
Theorem X4_child_only_execs w name l a e v :
  CFStringCreateWithCString_ok w name = true ->
  daemon_not_running w e ->
  singleuser_flag w = Some v -> v <> 0 ->
  fork w = 0 ->
  invoke w (Some name) l a =
    (if execl_returns w then Exited 1 else Replaced,
     mkState (Z.b2z (getuid w =? 0)) (Some e) "" (terminal w)
       ([CallSessionCreate None; CallSysctlbyname "kern.singleuser"]
          ++ child_events w)).
Proof.
  intros Hn Hd Hf Hv Hfork.
  apply invoke_connect_halt; [exact Hn|].
  rewrite (od_connect_down w _ _ e v Hd Hf).
  assert (Ht : is_true v = true)
    by (unfold is_true; apply negb_true_iff, Z.eqb_neq, Hv).
  rewrite Ht. unfold bind at 1. unfold bind at 1.
  rewrite (load_child_run w _ Hfork).
  unfold logged. cbn [master_mode error passbuf input output app].
  reflexivity.
Qed.

Lemma X4_child_only_execs_witness :
  daemon_not_running world_child daemon_down /\
  singleuser_flag world_child = Some 1 /\
  invoke world_child (Some "alice"%string) None None =
    (Exited 1,
     mkState 1 (Some daemon_down) "" []
       [CallSessionCreate None; CallSysctlbyname "kern.singleuser";
        CallFork; CallExecl launchctl [launchctl; "load"%string; plist];
        Perror "launchctl"]).
Proof.
  assert (Hd : daemon_not_running world_child daemon_down)
    by (split; reflexivity).
  split; [exact Hd|]. split; [reflexivity|].
  assert (H1 : (1 <> 0)%Z) by discriminate.
  exact (X4_child_only_execs world_child "alice"%string None None
           daemon_down 1 eq_refl Hd eq_refl H1 eq_refl).
Defined.

(** X5: when the daemon is not running, the host is in single-user mode
    and the loader does not answer 1 (the fork or the wait failed, or the
    child did not exit with status 0), the session error is displayed and
    [od_passwd] returns -1: there is no second session creation, no node
    or record call and no prompt. *)
Theorem X5_loader_failure_fatal w name l a e v :
  CFStringCreateWithCString_ok w name = true ->
  daemon_not_running w e ->
  singleuser_flag w = Some v -> v <> 0 ->
  fork w <> 0 ->
  loader_ok w = false ->
  invoke w (Some name) l a =
    (Returned (-1),
     mkState (Z.b2z (getuid w =? 0)) (Some e) "" (terminal w)
       ([CallSessionCreate None; CallSysctlbyname "kern.singleuser"]
          ++ loader_events w ++ shown w (Some e))) /\
  filter is_directory_call (output (snd (invoke w (Some name) l a)))
    = [CallSessionCreate None] /\
  filter is_prompt (output (snd (invoke w (Some name) l a))) = [].
Proof.
  intros Hn Hd Hf Hv Hfork Hok.
  assert (E : invoke w (Some name) l a =
    (Returned (-1),
     mkState (Z.b2z (getuid w =? 0)) (Some e) "" (terminal w)
       ([CallSessionCreate None; CallSysctlbyname "kern.singleuser"]
          ++ loader_events w ++ shown w (Some e)))).
  { apply invoke_connect_halt; [exact Hn|].
    rewrite (od_connect_down w _ _ e v Hd Hf).
    assert (Ht : is_true v = true)
      by (unfold is_true; apply negb_true_iff, Z.eqb_neq, Hv).
    rewrite Ht. unfold bind at 1. unfold bind at 1.
    rewrite (load_parent_run w _ Hfork), Hok.
    cbn [Z.b2z is_true Z.eqb negb]. unfold ret at 1.
    unfold bind at 1. unfold get_error at 1.
    unfold bind at 1. rewrite show_error_logged.
    unfold Return, halt, logged.
    cbn [master_mode error passbuf input output app].
    rewrite <- ?app_assoc. reflexivity. }
  split; [exact E|]. rewrite E. cbn [snd output]. split.
  - cbn [app filter is_directory_call].
    rewrite filter_app, filter_directory_shown,
      (filter_directory_process _ (loader_events_process w)).
    reflexivity.
  - cbn [app filter is_prompt].
    rewrite filter_app.
    assert (Hb : forall evs, Forall background evs -> filter is_prompt evs = []).
    { induction 1 as [|x xs [Hx _] _ IH]; [reflexivity|].
      cbn [filter]. now rewrite Hx. }
    rewrite (Hb _ (shown_background w (Some e))), app_nil_r.
    apply Hb. pose proof (loader_events_process w) as Hp.
    eapply Forall_impl; [|exact Hp].
    intros x Hx. destruct x; try discriminate Hx; split; reflexivity.
Qed.

Lemma X5_loader_failure_fatal_witness :
  daemon_not_running world_loader_fails daemon_down /\
  singleuser_flag world_loader_fails = Some 1 /\
  loader_ok world_loader_fails = false /\
  output (snd (invoke world_loader_fails (Some "alice"%string) None None)) =
    [CallSessionCreate None; CallSysctlbyname "kern.singleuser";
     CallFork; CallWaitpid; CallWaitpid; CallWaitpid;
     Stderr "passwd: Session daemon is not running"; Stderr nl].
Proof.
  assert (Hd : daemon_not_running world_loader_fails daemon_down)
    by (split; reflexivity).
  split; [exact Hd|]. split; [reflexivity|]. split; [reflexivity|].
  assert (H1 : (1 <> 0)%Z) by discriminate.
  assert (H77 : fork world_loader_fails <> 0) by discriminate.
  rewrite (proj1 (X5_loader_failure_fatal world_loader_fails "alice"%string
                    None None daemon_down 1 eq_refl Hd eq_refl H1 H77
                    eq_refl)).
  reflexivity.
Defined.

(** ** The prompts *)

Lemma od_oldpass_run w r needs_auth st :
  od_oldpass w r needs_auth st =
    if needs_auth
    then Next (converted w (hd None (input st))) (after_oldpass w r st)
    else Next None st.
Proof.
  unfold od_oldpass, after_oldpass. fold (old_prompt w r).
  destruct needs_auth; [|reflexivity].
  unfold getpass, memset_zero, bind, ret.
  destruct (input st) as [|[s|] rest]; reflexivity.
Qed.

Lemma newpass_loop_events w fuel : forall st,
  (List.length (input st) < fuel)%nat ->
  exists evs,
    output (state_of (newpass_loop w fuel st)) =
      output st ++ CallGetpass new_prompt (hd None (input st)) :: evs /\
    Forall (fun e => is_loop_event e = true) evs.
Proof.
  induction fuel as [|fuel IH]; intros st Hfuel; [lia|].
  cbn [newpass_loop]. unfold getpass, memset_zero, unchanged, mismatch.
  exec.
  all: try match goal with
         | |- context [newpass_loop ?w0 ?f ?s] =>
             let evs := fresh "evs" in
             let E := fresh "E" in
             let F := fresh "F" in
             destruct (IH s) as (evs & E & F);
             [cbn [input List.length] in *; lia
             |rewrite E; cbn [output input hd]]
         end.
  all: cbn [state_of output hd]; rewrite <- ?app_assoc; cbn [app];
    eexists; (split; [reflexivity|]).
  all: repeat first [ apply Forall_nil
                    | apply Forall_cons; [reflexivity|]
                    | assumption ].
Qed.

Lemma od_newpass_events w st :
  exists evs,
    output (state_of (od_newpass w st)) =
      output st ++ CallGetpass new_prompt (hd None (input st)) :: evs /\
    Forall (fun e => is_loop_event e = true) evs.
Proof. unfold od_newpass. apply newpass_loop_events. lia. Qed.

Lemma filter_prompt_background evs :
  Forall background evs -> filter is_prompt evs = [].
Proof.
  induction 1 as [|x xs [Hx _] _ IH]; [reflexivity|].
  cbn [filter]. now rewrite Hx.
Qed.

(** The invocation from the policy step on, for a caller who has to
    authenticate. *)
Lemma invoke_authenticated w u l a r st1 loc st2 :
  od_resolve w u l a (initial w) = Next r st1 ->
  od_policy w r st1 = Next (loc, true) st2 ->
  exists evs,
    output (snd (invoke w u l a)) =
      output st2 ++
        CallGetpass (old_prompt w r) (hd None (input st2)) ::
        CallGetpass new_prompt (hd None (tl (input st2))) :: evs.
Proof.
  intros Er Ep. unfold invoke, run.
  rewrite (od_passwd_steps _ _ _ _ _ _ Er), (od_change_steps _ _ _ _ _ _ Ep).
  unfold bind at 1. rewrite od_oldpass_run. unfold bind at 1.
  destruct (od_newpass_events w (after_oldpass w r st2)) as (evs & E & _).
  cbn [after_oldpass input output] in E.
  destruct (od_newpass w (after_oldpass w r st2)) as [np st4|o st4];
    cbn [state_of] in E.
  - rewrite od_commit_run.
    destruct (items_present r true _ np);
      cbn [snd output]; rewrite E, <- !app_assoc;
      cbn [app]; eexists; reflexivity.
  - cbn [snd]. rewrite E, <- !app_assoc. cbn [app]. eexists. reflexivity.
Qed.

(** X7: a caller who is not root is always asked for the old password
    first: once the record is found, the first prompt of the invocation
    is the old-password prompt and the second is "New password:", and
    they receive the first two replies of the terminal.  The label is
    "Old password:" when no authenticating name was given or it equals
    the user name, and "Password for NAME:" otherwise, cut to
    [BUFSIZ - 1] characters. *)
Theorem X7_nonroot_old_password_first w u l a r st1 :
  od_resolve w u l a (initial w) = Next r st1 ->
  getuid w <> 0 ->
  (exists rest,
     filter is_prompt (output (snd (invoke w u l a))) =
       CallGetpass (old_prompt w r) (hd None (terminal w)) ::
       CallGetpass new_prompt (hd None (tl (terminal w))) :: rest) /\
  old_prompt w r =
    truncate (BUFSIZ w)
      (match a with
       | Some x =>
           if String.eqb x (username r) then "Old password:"
           else "Password for " ++ x ++ ":"
       | None => "Old password:"
       end)%string.
Proof.
  intros Er Huid.
  pose proof (od_resolve_quiet w u l a (initial w)) as Hr.
  rewrite Er in Hr.
  destruct Hr as (Hq1 & Hmm & _ & Hn & Ha & _ & Hself & _).
  split.
  - pose proof (od_policy_post w r st1) as Hp.
    rewrite Hmm, is_true_b2z in Hp.
    apply Z.eqb_neq in Huid.
    destruct (od_policy w r st1) as [[loc b] st2|o st2] eqn:Ep.
    2: { destruct Hp as (_ & _ & Hroot & _). congruence. }
    destruct Hp as (Hq2 & _ & _ & Hb). rewrite Huid in Hb.
    cbn [negb orb] in Hb. subst b.
    destruct (invoke_authenticated w u l a r st1 loc st2 Er Ep) as [evs E].
    pose proof (quietly_trans _ _ _ Hq1 Hq2) as Hq.
    destruct Hq as (_ & Hin & evs0 & Hx & Hb0).
    unfold extends in Hx. cbn [initial input output app] in *.
    rewrite E, Hx, Hin, filter_app, (filter_prompt_background _ Hb0).
    cbn [app filter is_prompt]. eexists. reflexivity.
  - unfold old_prompt. rewrite Hself, Ha, Hn. unfold strcmp_eq.
    destruct a as [x|].
    + destruct (String.eqb x (uname r)); reflexivity.
    + now rewrite String.eqb_refl.
Qed.


Lemma X7_nonroot_old_password_first_witness :
  getuid world_admin <> 0 /\
  exists r st1,
    od_resolve world_admin (Some "bob") None (Some "admin")
      (initial world_admin) = Next r st1 /\
    old_prompt world_admin r = "Password for admin:"%string /\
    exists rest,
      filter is_prompt
        (output (snd (invoke world_admin (Some "bob") None (Some "admin"))))
      = CallGetpass "Password for admin:" (Some "adminpw") ::
        CallGetpass new_prompt (Some "n3w") :: rest.
Proof.
  assert (H : getuid world_admin <> 0) by discriminate.
  split; [exact H|].
  eexists. eexists.
  match goal with |- ?A /\ _ => assert (E : A) by (vm_compute; reflexivity) end.
  split; [exact E|]. split; [reflexivity|].
  exact (proj1 (X7_nonroot_old_password_first world_admin (Some "bob") None
                  (Some "admin") _ _ E H)).
Defined.

Lemma filter_mutation_background evs :
  Forall background evs -> filter is_mutation evs = [].
Proof.
  induction 1 as [|x xs [_ Hx] _ IH]; [reflexivity|].
  cbn [filter]. now rewrite Hx.
Qed.

Lemma filter_mutation_loop evs :
  Forall (fun e => is_loop_event e = true) evs -> filter is_mutation evs = [].
Proof.
  induction 1 as [|x xs Hx _ IH]; [reflexivity|].
  cbn [filter]. destruct x; try discriminate Hx; exact IH.
Qed.

Lemma filter_prompt_loop evs :
  Forall (fun e => is_loop_event e = true) evs ->
  Forall (fun e => is_loop_event e = true) (filter is_prompt evs).
Proof.
  induction 1 as [|x xs Hx _ IH]; [constructor|].
  cbn [filter]. destruct (is_prompt x); [constructor|]; assumption.
Qed.

(** X8: root changing a record whose location begins with "/Local/" is
    never asked for an old password: the first prompt is
    "New password:", every prompt is one of the two prompts of the loop,
    and the only operation that can follow is the change-password call
    with a null old password. *)
Theorem X8_root_local_no_old_password w u l a r st1 :
  od_resolve w u l a (initial w) = Next r st1 ->
  getuid w = 0 ->
  begins_local (location_used w r) = true ->
  (exists rest,
     filter is_prompt (output (snd (invoke w u l a))) =
       CallGetpass new_prompt (hd None (terminal w)) :: rest /\
     Forall (fun e => is_loop_event e = true) rest) /\
  (filter is_mutation (output (snd (invoke w u l a))) = [] \/
   exists c,
     filter is_mutation (output (snd (invoke w u l a))) =
       [CallChangePassword (rec r) None (Some c)]).
Proof.
  intros Er Huid Hlocal.
  pose proof (od_resolve_quiet w u l a (initial w)) as Hr.
  rewrite Er in Hr. destruct Hr as (Hq1 & Hmm & _).
  pose proof (od_policy_post w r st1) as Hp.
  rewrite Hmm, is_true_b2z, Huid in Hp. cbn [Z.eqb negb orb] in Hp.
  destruct (od_policy w r st1) as [[loc b] st2|o st2] eqn:Ep.
  2: { destruct Hp as (_ & _ & _ & Hnone). rewrite Hnone in Hlocal.
       discriminate Hlocal. }
  destruct Hp as (Hq2 & _ & -> & Hb). rewrite Hlocal in Hb.
  cbn [negb] in Hb. subst b.
  pose proof (quietly_trans _ _ _ Hq1 Hq2) as Hq.
  destruct Hq as (_ & Hin & evs0 & Hx & Hb0).
  unfold extends in Hx. cbn [initial input output app] in *.
  destruct (invoke w u l a) as [o stf] eqn:Ei. cbn [snd].
  unfold invoke, run in Ei.
  rewrite (od_passwd_steps _ _ _ _ _ _ Er), (od_change_steps _ _ _ _ _ _ Ep)
    in Ei.
  unfold bind at 1 in Ei. rewrite od_oldpass_run in Ei.
  unfold bind at 1 in Ei.
  destruct (od_newpass_events w st2) as (evs & E & Hloop).
  pose proof (od_newpass_post w st2) as Hl.
  rewrite Hin, Hx in E.
  destruct (od_newpass w st2) as [np st4|o4 st4]; cbn [state_of] in E.
  - destruct Hl as (_ & _ & _ & _ & c & _ & -> & _).
    rewrite od_commit_run in Ei. cbn [items_present] in Ei.
    inv_steps. cbn [output commit_event].
    rewrite E. split.
    + exists (filter is_prompt evs).
      rewrite <- ?app_assoc, !filter_app, (filter_prompt_background _ Hb0).
      cbn [app filter is_prompt]. rewrite ?filter_app.
      cbn [app filter is_prompt].
      rewrite (filter_prompt_background _ (shown_background w _)), app_nil_r.
      split; [reflexivity|]. now apply filter_prompt_loop.
    + right. exists c.
      rewrite <- ?app_assoc, !filter_app, (filter_mutation_background _ Hb0).
      cbn [app filter is_mutation].
      rewrite ?filter_app, (filter_mutation_loop _ Hloop).
      cbn [app filter is_mutation].
      now rewrite (filter_mutation_background _ (shown_background w _)).
  - inv_steps. rewrite E. split.
    + exists (filter is_prompt evs).
      rewrite filter_app, (filter_prompt_background _ Hb0).
      cbn [app filter is_prompt].
      split; [reflexivity|]. now apply filter_prompt_loop.
    + left. rewrite filter_app, (filter_mutation_background _ Hb0).
      cbn [app filter is_mutation]. now apply filter_mutation_loop.
Qed.

Lemma X8_root_local_no_old_password_witness :
  getuid world_root_local = 0 /\
  exists r st1,
    od_resolve world_root_local (Some "alice") None None
      (initial world_root_local) = Next r st1 /\
    begins_local (location_used world_root_local r) = true /\
    exists rest,
      filter is_prompt
        (output (snd (invoke world_root_local (Some "alice") None None)))
      = CallGetpass new_prompt (Some "s3cret") :: rest /\
      Forall (fun e => is_loop_event e = true) rest.
Proof.
  split; [reflexivity|].
  eexists. eexists.
  match goal with |- ?A /\ _ => assert (E : A) by (vm_compute; reflexivity) end.
  split; [exact E|]. split; [reflexivity|].
  exact (proj1 (X8_root_local_no_old_password world_root_local
                  (Some "alice") None None _ _ E eq_refl eq_refl)).
Defined.

(** X9: when the commit step is reached, the new password is never null
    or empty, and it is what the last two prompts received: the same text
    at "New password:" and at "Retype new password:".  The old password
    is the conversion of the first reply of the terminal when the caller
    had to authenticate, and null otherwise.  If every item of the
    operation is there, the operation follows directly on the two
    prompts; if an item of the extended operation is null, there is no
    operation: building the array of items faults. *)
Theorem X9_committed_password w u l a r b oldpass newpass st :
  reaches_commit w u l a r b oldpass newpass st ->
  exists c pre,
    newpass = Some c /\ c <> ""%string /\
    oldpass = (if b then converted w (hd None (terminal w)) else None) /\
    output st = pre ++ [CallGetpass new_prompt (Some c);
                        CallGetpass retype_prompt (Some c)] /\
    if items_present r b oldpass newpass
    then output (snd (invoke w u l a)) =
           output st ++ commit_event r b oldpass (Some c)
                     :: shown w (error (snd (invoke w u l a)))
    else invoke w u l a = (Faulted, st).
Proof.
  intros H.
  destruct (reaches_commit_run _ _ _ _ _ _ _ _ _ H) as [Hrun _].
  destruct H as (st1 & loc & st2 & st3 & Er & Ep & Eo & En).
  pose proof (od_resolve_quiet w u l a (initial w)) as Hr.
  rewrite Er in Hr. destruct Hr as (Hq1 & _).
  pose proof (od_policy_post w r st1) as Hp.
  rewrite Ep in Hp. destruct Hp as (Hq2 & _).
  destruct (quietly_trans _ _ _ Hq1 Hq2) as (_ & Hin & _).
  cbn [initial input] in Hin.
  rewrite od_oldpass_run, Hin in Eo.
  pose proof (od_newpass_post w st3) as Hl. rewrite En in Hl.
  destruct Hl as (_ & _ & evs & _ & c & Hout & -> & Hne & _).
  exists c, (output st3 ++ evs). split; [reflexivity|]. split; [exact Hne|].
  split; [destruct b; inv_steps; reflexivity|].
  split; [rewrite Hout, <- app_assoc; reflexivity|].
  rewrite Hrun. unfold run. rewrite od_commit_run.
  destruct (items_present r b oldpass (Some c)); reflexivity.
Qed.

Lemma X9_committed_password_witness :
  exists r st,
    reaches_commit world_admin (Some "bob") None (Some "admin")
      r true (Some "adminpw"%string) (Some "n3w"%string) st /\
    exists pre,
      output st = pre ++ [CallGetpass new_prompt (Some "n3w"%string);
                          CallGetpass retype_prompt (Some "n3w"%string)].
Proof.
  eexists. eexists.
  match goal with |- ?A /\ _ => assert (H : A) end.
  { do 4 eexists. repeat split; vm_compute; reflexivity. }
  split; [exact H|].
  destruct (X9_committed_password world_admin (Some "bob") None
              (Some "admin") _ true _ _ _ H)
    as (c & pre & Hc & _ & _ & Hout & _).
  inversion Hc; subst c. exists pre. exact Hout.
Defined.

(** X10: a caller who has to authenticate gives the first reply of the
    terminal as the old password, and the buffer it was read into holds
    only zero bytes, as many as the reply had characters, before the
    first "New password:" prompt is made. *)
Theorem X10_old_password_zeroed w u l a r st1 loc st2 s :
  od_resolve w u l a (initial w) = Next r st1 ->
  od_policy w r st1 = Next (loc, true) st2 ->
  hd None (terminal w) = Some s ->
  exists st3,
    od_oldpass w r true st2 = Next (CFStringCreateWithCString w s) st3 /\
    passbuf st3 = zeroes (String.length s) /\
    input st3 = tl (terminal w) /\
    output st3 = output st2 ++ [CallGetpass (old_prompt w r) (Some s)].
Proof.
  intros Er Ep Hs.
  pose proof (od_resolve_quiet w u l a (initial w)) as Hr.
  rewrite Er in Hr. destruct Hr as (Hq1 & _).
  pose proof (od_policy_post w r st1) as Hp.
  rewrite Ep in Hp. destruct Hp as (Hq2 & _).
  destruct (quietly_trans _ _ _ Hq1 Hq2) as (_ & Hin & _).
  cbn [initial input] in Hin.
  rewrite od_oldpass_run. unfold after_oldpass. rewrite Hin.
  destruct (terminal w) as [|[s'|] rest]; try discriminate Hs.
  cbn [hd] in Hs. inv_steps.
  eexists. split; [reflexivity|]. cbn [passbuf input output hd tl].
  repeat split.
Qed.

Lemma X10_old_password_zeroed_witness :
  exists r st1 loc st2 st3,
    od_resolve world_admin (Some "bob") None (Some "admin")
      (initial world_admin) = Next r st1 /\
    od_policy world_admin r st1 = Next (loc, true) st2 /\
    od_oldpass world_admin r true st2 = Next (Some "adminpw"%string) st3 /\
    passbuf st3 = zeroes 7.
Proof.
  eexists. eexists. eexists. eexists.
  match goal with
  | |- exists st3, ?A /\ ?B /\ _ =>
      assert (Er : A) by (vm_compute; reflexivity);
      assert (Ep : B) by (vm_compute; reflexivity)
  end.
  destruct (X10_old_password_zeroed world_admin (Some "bob") None
              (Some "admin") _ _ _ _ "adminpw"%string Er Ep eq_refl)
    as (st3 & Eo & Hbuf & _).
  exists st3. repeat split; assumption.
Defined.

(** ** Node and record *)

Lemma od_copy_record_run w u username session loc st :
  exists st',
    st' = mkState (master_mode st)
            (match snd (node_result w session loc) with
             | Some e => e
             | None => error st
             end)
            (passbuf st) (input st)
            (output st ++ [node_event session loc]) /\
    od_copy_record w u username session loc st =
      (rec <-
         match fst (node_result w session loc) with
         | Some n => call (CallNodeCopyRecord n username)
                          (ODNodeCopyRecord w n username)
         | None => ret None
         end ;;
       match rec with
       | Some r => ret r
       | None =>
           err <- get_error ;;
           match err with
           | Some _ => show_error w err
           | None => emit (unknown_user w u)
           end ;;
           Return (-1)
       end) st'.
Proof.
  eexists. split; [reflexivity|].
  unfold od_copy_record, node_result, node_event, unknown_user.
  unfold bind at 1.
  destruct loc as [l|]; unfold call at 1;
    [destruct (ODNodeCreateWithName w session l) as [node ew]
    |destruct (ODNodeCreateWithNodeType w session) as [node ew]];
    destruct ew; reflexivity.
Qed.

(** X11: unless the daemon-not-running fallback is taken, an invocation
    creates one session and goes straight on to the node, whatever the
    session creation answered, a null session included: the node is
    created by name when a location was supplied and by the
    authentication node type otherwise.  No kernel query and no fork is
    made. *)
Theorem X11_session_result_not_checked w name l a :
  CFStringCreateWithCString_ok w name = true ->
  session_daemon_not_running w
    (fst (ODSessionCreate w None)) (first_session_error w) = false ->
  exists post,
    output (snd (invoke w (Some name) l a)) =
      CallSessionCreate None ::
      node_event (fst (ODSessionCreate w None)) (supplied w l) :: post.
Proof.
  intros Hn Hnot.
  assert (Hu : CFStringCreateWithCString w name = Some name)
    by (unfold CFStringCreateWithCString; now rewrite Hn).
  destruct (invoke_extends_resolve w (Some name) l a) as [tail ->].
  unfold od_resolve. rewrite Hu.
  unfold bind at 1. unfold set_master_mode at 1. unfold bind at 1.
  fold (supplied w l). unfold initial.
  cbn [error passbuf input output].
  assert (Ec : forall st, error st = None -> output st = [] ->
            exists st',
              od_connect w (supplied w l) st =
                Next (fst (ODSessionCreate w None), supplied w l) st' /\
              output st' = [CallSessionCreate None]).
  { intros st He Ho. unfold od_connect, call.
    unfold first_session_error in Hnot.
    destruct (ODSessionCreate w None) as [session ew]. cbn [fst snd] in *.
    unfold bind at 1. unfold bind at 1. unfold emit at 1.
    unfold bind at 1.
    destruct ew as [e|]; unfold store_error at 1; unfold ret at 1;
      unfold bind at 1; unfold get_error at 1; cbn [error];
      rewrite ?He, Hnot; unfold ret; eexists; (split; [reflexivity|]);
      cbn [output]; now rewrite Ho. }
  destruct (Ec (mkState (Z.b2z (getuid w =? 0)) None "" (terminal w) [])
              eq_refl eq_refl) as (st' & -> & Ho).
  unfold bind at 1.
  destruct (od_copy_record_run w name name (fst (ODSessionCreate w None))
              (supplied w l) st') as (st'' & Hst & ->).
  match goal with
  | |- context [bind ?m ?k st''] =>
      assert (Hx : exists evs,
                output (state_of (bind m k st'')) = output st'' ++ evs)
  end.
  { unfold bind at 1. unfold call.
    destruct (fst (node_result w (fst (ODSessionCreate w None))
                     (supplied w l))) as [n|]; exec;
      cbn [state_of output]; rewrite <- ?app_assoc; eexists; reflexivity. }
  destruct Hx as [evs Hx].
  match goal with
  | |- context [bind ?m ?k st''] => destruct (bind m k st'') as [r0 s0|o0 s0]
  end; unfold ret; cbn [state_of] in *; rewrite Hx, Hst; cbn [output];
    rewrite Ho; rewrite <- ?app_assoc; cbn [app]; eexists; reflexivity.
Qed.

Lemma X11_session_result_not_checked_witness :
  session_daemon_not_running world_session_refused
    (fst (ODSessionCreate world_session_refused None))
    (first_session_error world_session_refused) = false /\
  invoke world_session_refused (Some "alice") None None =
    (Returned (-1),
     mkState 0 (Some (sample_error 2100 "Node not found")) "" []
       [CallSessionCreate None;
        CallNodeCreateWithNodeType None;
        Stderr "passwd: Node not found"; Stderr nl]).
Proof.
  split; [reflexivity|].
  destruct (X11_session_result_not_checked world_session_refused "alice"
              None None eq_refl eq_refl) as [post _].
  reflexivity.
Defined.

Lemma od_copy_record_cases w u username session loc st :
  match od_copy_record w u username session loc st with
  | Next r st' =>
      exists n,
        fst (node_result w session loc) = Some n /\
        fst (ODNodeCopyRecord w n username) = Some r /\
        output st' =
          output st ++ [node_event session loc; CallNodeCopyRecord n username]
  | Halt o st' =>
      o = Returned (-1) /\
      exists calls,
        output st' =
          output st ++ calls ++
            match error st' with
            | Some _ => shown w (error st')
            | None => [unknown_user w u]
            end /\
        match fst (node_result w session loc) with
        | None => calls = [node_event session loc]
        | Some n =>
            calls = [node_event session loc; CallNodeCopyRecord n username] /\
            fst (ODNodeCopyRecord w n username) = None
        end
  end.
Proof.
  destruct (od_copy_record_run w u username session loc st)
    as (st' & Hst & ->).
  unfold bind at 1.
  destruct (fst (node_result w session loc)) as [n|].
  - unfold call.
    destruct (ODNodeCopyRecord w n username) as [rec ew] eqn:En.
    cbn [fst snd].
    subst st'. destruct rec as [r|]; exec.
    all: try (exists n; rewrite En; repeat split; rewrite <- ?app_assoc;
              reflexivity).
    all: split; [reflexivity|]; eexists; split;
      [|split; [reflexivity|first [reflexivity|now rewrite En]]];
      unfold logged; cbn [output error master_mode passbuf input];
      rewrite <- ?app_assoc; reflexivity.
  - subst st'. exec.
    all: split; [reflexivity|]; eexists; split; [|reflexivity];
      unfold logged; cbn [output error master_mode passbuf input];
      rewrite <- ?app_assoc; reflexivity.
Qed.

(** X12: the record is looked up, by the user name, only on a node that
    was obtained.  When no node or no record is obtained, exactly one
    report is made, the error in the slot if there is one and the
    unknown-user line otherwise, and -1 is returned; a record that is
    returned is the one the lookup on that node answered. *)
Theorem X12_record_lookup w u username session loc st :
  match od_copy_record w u username session loc st with
  | Next r st' =>
      exists n,
        fst (node_result w session loc) = Some n /\
        fst (ODNodeCopyRecord w n username) = Some r /\
        output st' =
          output st ++ [node_event session loc; CallNodeCopyRecord n username]
  | Halt o st' =>
      o = Returned (-1) /\
      exists calls,
        output st' =
          output st ++ calls ++
            match error st' with
            | Some _ => shown w (error st')
            | None => [unknown_user w u]
            end /\
        match fst (node_result w session loc) with
        | None => calls = [node_event session loc]
        | Some n =>
            calls = [node_event session loc; CallNodeCopyRecord n username] /\
            fst (ODNodeCopyRecord w n username) = None
        end
  end.
Proof. exact (od_copy_record_cases w u username session loc st). Qed.

(** ** The order of the calls *)

Lemma StronglySorted_app {A} (R : A -> A -> Prop) l1 l2 :
  StronglySorted R l1 -> StronglySorted R l2 ->
  (forall x y, In x l1 -> In y l2 -> R x y) ->
  StronglySorted R (l1 ++ l2).
Proof.
  induction 1 as [|x l1 Hs IH Hx]; intros H2 Hc; [exact H2|].
  cbn [app]. constructor.
  - apply IH; [exact H2|]. intros a b Ha Hb. apply Hc; [now right|exact Hb].
  - apply Forall_app. split; [exact Hx|].
    apply Forall_forall. intros y Hy. apply Hc; [now left|exact Hy].
Qed.

Lemma chunk_nil lo hi : chunk lo hi [].
Proof. split; constructor. Qed.

Lemma chunk_app lo1 hi1 lo2 hi2 lo hi l1 l2 :
  chunk lo1 hi1 l1 -> chunk lo2 hi2 l2 ->
  (forall x y, (lo1 <= x <= hi1)%nat -> (lo2 <= y <= hi2)%nat -> follows x y) ->
  (lo <= lo1)%nat -> (lo <= lo2)%nat -> (hi1 <= hi)%nat -> (hi2 <= hi)%nat ->
  chunk lo hi (l1 ++ l2).
Proof.
  intros [S1 F1] [S2 F2] Hc Ha Hb Hd He. split.
  - apply StronglySorted_app; try assumption.
    intros x y Hx Hy. rewrite Forall_forall in F1, F2.
    apply Hc; [apply F1, Hx | apply F2, Hy].
  - apply Forall_app. split.
    + eapply Forall_impl; [|exact F1]. cbn. intros n Hn. lia.
    + eapply Forall_impl; [|exact F2]. cbn. intros n Hn. lia.
Qed.

Lemma stages_app evs1 evs2 : stages (evs1 ++ evs2) = stages evs1 ++ stages evs2.
Proof. unfold stages. apply flat_map_app. Qed.

(** Calls of one step that may be repeated. *)
Lemma chunk_same k evs :
  k = 0%nat \/ k = 4%nat ->
  Forall (fun e => stage e = Some k \/ stage e = None) evs ->
  chunk k k (stages evs).
Proof.
  intros Hk. induction 1 as [|e evs He _ IH]; [apply chunk_nil|].
  cbn [stages flat_map]. fold (stages evs).
  destruct He as [-> | ->]; [|exact IH].
  cbn [app]. destruct IH as [S F]. split.
  - constructor; [exact S|].
    eapply Forall_impl; [|exact F]. cbn. intros n Hn.
    right. split; [lia|exact Hk].
  - constructor; [lia|exact F].
Qed.

Lemma stages_shown w err : stages (shown w err) = [].
Proof.
  destruct err as [e|]; [|reflexivity]. cbn [shown].
  destruct (CFErrorCopyDescription e), (CFErrorCopyFailureReason e),
    (CFErrorCopyRecoverySuggestion e); reflexivity.
Qed.

Lemma shown_unstaged w err :
  Forall (fun e => stage e = Some 0%nat \/ stage e = None) (shown w err).
Proof.
  destruct err as [e|]; [|constructor]. cbn [shown].
  destruct (CFErrorCopyDescription e), (CFErrorCopyFailureReason e),
    (CFErrorCopyRecoverySuggestion e); cbn [app];
    repeat (apply Forall_cons; [now right|]); constructor.
Qed.

Ltac all_connecting :=
  repeat first
    [ apply Forall_nil
    | apply shown_unstaged
    | apply Forall_app; split
    | apply Forall_cons; [first [left; reflexivity | right; reflexivity]|]
    | apply Forall_forall; intros ? ?Hin;
      apply repeat_spec in Hin; subst; left; reflexivity ].

Lemma od_connect_stages w loc st :
  exists evs,
    output (state_of (od_connect w loc st)) = output st ++ evs /\
    chunk 0 0 (stages evs).
Proof.
  unfold od_connect, and_then, is_singleuser, load_DirectoryServicesLocal.
  exec.
  all: cbn [state_of]; eexists; (split; [trace_tail|]).
  all: apply chunk_same; [now left|]; all_connecting.
Qed.

Lemma chunk_list lo hi l :
  StronglySorted follows l -> Forall (fun n => (lo <= n <= hi)%nat) l ->
  chunk lo hi l.
Proof. now split. Qed.

Ltac chunk_concrete :=
  apply chunk_list;
  [repeat (constructor; try (left; lia))
  |repeat (constructor; try lia)].

Lemma od_copy_record_stages w u username session loc st :
  exists evs,
    output (state_of (od_copy_record w u username session loc st))
      = output st ++ evs /\
    chunk 1 2 (stages evs).
Proof.
  pose proof (od_copy_record_cases w u username session loc st) as H.
  assert (Hn : stage (node_event session loc) = Some 1%nat)
    by (destruct loc; reflexivity).
  destruct (od_copy_record w u username session loc st) as [r st'|o st'];
    cbn [state_of].
  - destruct H as (n & _ & _ & ->). eexists. split; [reflexivity|].
    cbn [stages flat_map]. rewrite Hn. cbn [app stage]. chunk_concrete.
  - destruct H as (_ & calls & -> & Hc). eexists. split; [reflexivity|].
    assert (Hr : stages (match error st' with
                         | Some _ => shown w (error st')
                         | None => [unknown_user w u]
                         end) = []).
    { destruct (error st'); [apply stages_shown|reflexivity]. }
    rewrite stages_app, Hr, app_nil_r.
    destruct (fst (node_result w session loc)) as [n|].
    + destruct Hc as [-> _]. cbn [stages flat_map]. rewrite Hn.
      cbn [app stage]. chunk_concrete.
    + subst calls. cbn [stages flat_map]. rewrite Hn.
      cbn [app]. chunk_concrete.
Qed.

Lemma follows_later x y lo1 hi1 lo2 hi2 :
  (hi1 < lo2)%nat ->
  (lo1 <= x <= hi1)%nat -> (lo2 <= y <= hi2)%nat -> follows x y.
Proof. intros. left. lia. Qed.

Lemma od_resolve_stages w u l a st :
  exists evs,
    output (state_of (od_resolve w u l a st)) = output st ++ evs /\
    chunk 0 2 (stages evs).
Proof.
  unfold od_resolve.
  destruct u as [u|].
  2: { exists []. cbn [state_of Return halt]. rewrite app_nil_r.
       split; [reflexivity|apply chunk_nil]. }
  unfold bind at 1. unfold set_master_mode at 1.
  destruct (CFStringCreateWithCString w u) as [username|].
  2: { exists []. cbn [state_of Return halt output]. rewrite app_nil_r.
       split; [reflexivity|apply chunk_nil]. }
  unfold bind at 1.
  match goal with
  | |- context [od_connect w ?loc ?s] =>
      destruct (od_connect_stages w loc s) as (evs1 & E1 & C1);
      destruct (od_connect w loc s) as [[session loc'] st1|o st1]
  end; cbn [state_of output] in E1.
  - unfold bind at 1.
    destruct (od_copy_record_stages w u username session loc' st1)
      as (evs2 & E2 & C2).
    exists (evs1 ++ evs2). split.
    + destruct (od_copy_record w u username session loc' st1);
        unfold ret; cbn [state_of] in *; rewrite E2, E1;
        now rewrite app_assoc.
    + rewrite stages_app.
      eapply chunk_app; [exact C1|exact C2| |lia|lia|lia|lia].
      intros x y. apply follows_later. lia.
  - exists evs1. cbn [state_of]. split; [exact E1|].
    rewrite <- (app_nil_r (stages evs1)).
    eapply chunk_app; [exact C1|apply (chunk_nil 2 2)| |lia|lia|lia|lia].
    intros x y. apply follows_later. lia.
Qed.

Lemma od_policy_events w r st :
  output (state_of (od_policy w r st)) =
    output st ++ [CallRecordCopyValues (rec r);
                  Stdout ("Changing password for " ++ uname r ++ "." ++ nl)%string].
Proof.
  unfold od_policy. exec; cbn [state_of output]; rewrite <- ?app_assoc;
    reflexivity.
Qed.

Lemma loop_event_prompting evs :
  Forall (fun e => is_loop_event e = true) evs ->
  Forall (fun e => stage e = Some 4%nat \/ stage e = None) evs.
Proof.
  intros H. eapply Forall_impl; [|exact H].
  intros e He. destruct e; try discriminate He; auto.
Qed.

Lemma od_change_stages w r st :
  exists evs,
    output (state_of (od_change w r st)) = output st ++ evs /\
    chunk 3 5 (stages evs).
Proof.
  unfold od_change. unfold bind at 1.
  pose proof (od_policy_events w r st) as Ep.
  assert (C3 : chunk 3 3 (stages [CallRecordCopyValues (rec r);
     Stdout ("Changing password for " ++ uname r ++ "." ++ nl)%string])).
  { cbn. chunk_concrete. }
  destruct (od_policy w r st) as [[loc b] st2|o st2]; cbn [state_of snd] in *.
  2: { eexists. split; [exact Ep|].
       destruct C3 as [S F]. split; [exact S|].
       eapply Forall_impl; [|exact F]. cbn. intros; lia. }
  unfold bind at 1. rewrite od_oldpass_run.
  assert (Co : exists st3 evs3,
            (if b then Next (converted w (hd None (input st2)))
                            (after_oldpass w r st2)
             else Next None st2) = Next (if b then converted w (hd None (input st2)) else None) st3 /\
            output st3 = output st2 ++ evs3 /\
            chunk 4 4 (stages evs3)).
  { destruct b.
    - eexists. eexists. split; [reflexivity|]. split; [reflexivity|].
      cbn. chunk_concrete.
    - exists st2, []. split; [reflexivity|]. rewrite app_nil_r.
      split; [reflexivity|apply chunk_nil]. }
  destruct Co as (st3 & evs3 & -> & E3 & C4).
  unfold bind at 1.
  destruct (od_newpass_events w st3) as (evs4 & E4 & Hloop).
  assert (C5 : chunk 4 4 (stages (CallGetpass new_prompt (hd None (input st3))
                                    :: evs4))).
  { apply chunk_same; [now right|].
    apply Forall_cons; [now left|]. now apply loop_event_prompting. }
  assert (C45 : chunk 4 4 (stages (evs3 ++ CallGetpass new_prompt
                                     (hd None (input st3)) :: evs4))).
  { rewrite stages_app.
    eapply chunk_app; [exact C4|exact C5| |lia|lia|lia|lia].
    intros x y Hx Hy. right. lia. }
  assert (C35 : chunk 3 4 (stages ([CallRecordCopyValues (rec r);
     Stdout ("Changing password for " ++ uname r ++ "." ++ nl)%string] ++
     evs3 ++ CallGetpass new_prompt (hd None (input st3)) :: evs4))).
  { rewrite stages_app.
    eapply chunk_app; [exact C3|exact C45| |lia|lia|lia|lia].
    intros x y. apply follows_later. lia. }
  destruct (od_newpass w st3) as [np st4|o st4]; cbn [state_of] in E4.
  - rewrite od_commit_run.
    destruct (items_present r b _ np).
    2: { eexists. split.
         - cbn [state_of]. rewrite E4, E3, Ep, <- !app_assoc. reflexivity.
         - destruct C35 as [S F]. split; [exact S|].
           eapply Forall_impl; [|exact F]. cbn. intros; lia. }
    cbn [state_of output].
    match goal with
    | |- context [output st4 ++ ?ce :: shown w ?err] =>
        exists (([CallRecordCopyValues (rec r);
                  Stdout ("Changing password for " ++ uname r ++ "." ++ nl)%string]
                 ++ evs3 ++ CallGetpass new_prompt (hd None (input st3)) :: evs4)
                ++ ce :: shown w err);
        assert (Hs : stage ce = Some 5%nat) by (destruct b; reflexivity);
        assert (C6 : chunk 5 5 (stages (ce :: shown w err)))
    end.
    { cbn [stages flat_map]. rewrite Hs.
      match goal with
      | |- context [flat_map ?f (shown w ?err)] =>
          change (flat_map f (shown w err)) with (stages (shown w err))
      end.
      rewrite stages_shown. cbn [app].
      apply (chunk_list 5 5); repeat constructor; lia. }
    split.
    + rewrite E4, E3, Ep, <- !app_assoc. reflexivity.
    + rewrite stages_app.
      eapply chunk_app; [exact C35|exact C6| |lia|lia|lia|lia].
      intros x y. apply follows_later. lia.
  - eexists. split.
    + cbn [state_of]. rewrite E4, E3, Ep, <- !app_assoc. reflexivity.
    + destruct C35 as [S F]. split; [exact S|].
      eapply Forall_impl; [|exact F]. cbn. intros; lia.
Qed.

Lemma StronglySorted_after {A} (R : A -> A -> Prop) l1 x l2 :
  StronglySorted R (l1 ++ x :: l2) -> Forall (R x) l2.
Proof.
  induction l1 as [|y l1 IH]; cbn [app]; intros H;
    apply StronglySorted_inv in H; destruct H as [H1 H2].
  - exact H2.
  - apply IH, H1.
Qed.

(** X6: the calls of every invocation come in the order of the flow:
    first the session and its single-user bootstrap, then at most one
    node creation, at most one record lookup, at most one read of the
    node location, then the prompts, then at most one operation on the
    record.  So whatever call is made, every later call is of a later
    step, or of the same step when that is connecting or prompting. *)
Theorem X6_calls_in_order w u l a :
  StronglySorted follows (stages (output (snd (invoke w u l a)))) /\
  forall pre e post n,
    output (snd (invoke w u l a)) = pre ++ e :: post ->
    stage e = Some n ->
    Forall (follows n) (stages post).
Proof.
  assert (H : chunk 0 5 (stages (output (snd (invoke w u l a))))).
  { unfold invoke, run, od_passwd. unfold bind at 1.
    destruct (od_resolve_stages w u l a (initial w)) as (evs1 & E1 & C1).
    cbn [initial output app] in E1.
    destruct (od_resolve w u l a (initial w)) as [r st1|o st1];
      cbn [state_of] in E1.
    - destruct (od_change_stages w r st1) as (evs2 & E2 & C2).
      assert (E : output (snd match od_change w r st1 with
                              | Next v st' => (Returned v, st')
                              | Halt o st' => (o, st')
                              end) = evs1 ++ evs2).
      { destruct (od_change w r st1); cbn [state_of snd] in *;
          now rewrite E2, E1. }
      rewrite E, stages_app.
      eapply chunk_app; [exact C1|exact C2| |lia|lia|lia|lia].
      intros x y. apply follows_later. lia.
    - cbn [snd]. rewrite E1. destruct C1 as [S F]. split; [exact S|].
      eapply Forall_impl; [|exact F]. cbn. intros; lia. }
  destruct H as [S _]. split; [exact S|].
  intros pre e post n Hout Hn. rewrite Hout, stages_app in S.
  cbn [stages flat_map] in S. rewrite Hn in S. cbn [app] in S.
  apply StronglySorted_after in S. exact S.
Qed.

Lemma X6_calls_in_order_witness :
  output (snd (invoke world_admin (Some "bob") None (Some "admin"))) =
    [CallSessionCreate None;
     CallNodeCreateWithNodeType (Some (ODSession 1))] ++
    CallNodeCopyRecord (ODNode 1) "bob" ::
    [CallRecordCopyValues (ODRecord 1);
     Stdout ("Changing password for bob." ++ nl)%string;
     CallGetpass "Password for admin:" (Some "adminpw"%string);
     CallGetpass new_prompt (Some "n3w"%string);
     CallGetpass retype_prompt (Some "n3w"%string);
     CallSetNodeCredentialsExtended (ODRecord 1)
       [Some "bob"; Some "n3w"; Some "admin"; Some "adminpw"]%string] /\
  Forall (follows 2) [3; 4; 4; 4; 5]%nat.
Proof.
  assert (E : output (snd (invoke world_admin (Some "bob") None
                             (Some "admin"))) =
    [CallSessionCreate None;
     CallNodeCreateWithNodeType (Some (ODSession 1))] ++
    CallNodeCopyRecord (ODNode 1) "bob" ::
    [CallRecordCopyValues (ODRecord 1);
     Stdout ("Changing password for bob." ++ nl)%string;
     CallGetpass "Password for admin:" (Some "adminpw"%string);
     CallGetpass new_prompt (Some "n3w"%string);
     CallGetpass retype_prompt (Some "n3w"%string);
     CallSetNodeCredentialsExtended (ODRecord 1)
       [Some "bob"; Some "n3w"; Some "admin"; Some "adminpw"]%string])
    by reflexivity.
  split; [exact E|].
  exact (proj2 (X6_calls_in_order world_admin (Some "bob") None
                  (Some "admin")) _ _ _ 2%nat E eq_refl).
Defined.

(** ** Edges of the loop *)

(** X13: a confirmation that cannot be converted to a [CFStringRef] is a
    mismatch whatever was typed: the mismatch line is printed and the
    loop starts again.  In particular a password of unconvertible bytes,
    typed twice alike, is never committed. *)
Theorem X13_unconvertible_confirmation w st n c rest :
  input st = Some n :: Some c :: rest ->
  n <> ""%string ->
  CFStringCreateWithCString_ok w c = false ->
  od_newpass w st =
    od_newpass w (mkState (master_mode st) (error st) c rest
                          (output st ++ mismatch_round (n, c))).
Proof.
  intros Hin Hne Hc.
  unfold od_newpass at 1. rewrite Hin. cbn [List.length].
  remember (S (S (List.length rest))) as fuel eqn:Hfuel.
  cbn [newpass_loop].
  unfold getpass, memset_zero, unchanged, mismatch.
  unfold bind at 1. rewrite Hin.
  assert (Hlen : (0 <? String.length n)%nat = true)
    by (destruct n; [congruence|reflexivity]).
  rewrite Hlen.
  assert (Hv : CFStringCreateWithCString w c = None)
    by (unfold CFStringCreateWithCString; now rewrite Hc).
  unfold bind at 1. unfold bind at 1. unfold ret at 1.
  unfold bind at 1. cbn [input]. rewrite Hv.
  unfold bind, emit. cbn [master_mode error passbuf input output].
  rewrite od_newpass_fuel by (cbn [input]; lia).
  f_equal. f_equal. unfold mismatch_round. cbn [fst snd].
  rewrite <- !app_assoc. reflexivity.
Qed.

Lemma X13_unconvertible_confirmation_witness :
  input (initial world_bad_bytes) = [Some "p"; Some "p"]%string /\
  od_newpass world_bad_bytes (initial world_bad_bytes) =
    Halt (Exited 0)
      (mkState 0 None "p" []
         [CallGetpass new_prompt (Some "p"%string);
          CallGetpass retype_prompt (Some "p"%string);
          Stdout mismatch_line;
          CallGetpass new_prompt None;
          Stdout unchanged_line]).
Proof.
  split; [reflexivity|].
  rewrite (X13_unconvertible_confirmation world_bad_bytes
             (initial world_bad_bytes) "p" "p" [] eq_refl
             ltac:(discriminate) eq_refl).
  reflexivity.
Defined.


